(** * Selemene engine: the Agent 35 validation script

    A shallow embedding of [crates/engine-vimshottari/validate_agent35.py]
    and the properties of its report.

    The script reads [src/wisdom_data.rs], extracts one record per planet
    with a regular expression, prints a completeness report, counts the
    list items of the Sun record, inspects [src/witness.rs] and prints a
    final verdict.

    Modelling choices:
    - a Python [str] is a list of Unicode code points ([list N]);
    - [re] is a backtracking matcher (continuation passing) over the
      fragment of the syntax that the script's patterns use;
    - the dictionary [descriptions] is a [gmap] keyed by planet name;
    - standard output is the list of printed lines, threaded through a
      small state-and-exception monad in which the script is written;
    - the file system is a function from paths to read results, so that
      [open] can raise. *)

From Stdlib Require Import ZArith NArith List String Ascii Lia Bool DecimalString.
From stdpp Require Import gmap list.

Set Default Proof Using "Type".

(* ================================================================== *)
(** ** Python strings *)
(* ================================================================== *)

Abbreviation str := (list N).

(** An ASCII literal of the script as a list of code points. *)
Definition s2l (s : string) : str := map N_of_ascii (list_ascii_of_string s).

(** The double quote, U+0022. *)
Definition dquote : N := 34%N.

(** [str.isspace] on one code point, which is also [\s] of [re] on [str]
    patterns: the code points CPython lists as whitespace. *)
Definition py_isspace (c : N) : bool :=
  ((9 <=? c) && (c <=? 13))%N || ((28 <=? c) && (c <=? 32))%N
  || (c =? 133)%N || (c =? 160)%N || (c =? 5760)%N
  || ((8192 <=? c) && (c <=? 8202))%N
  || (c =? 8232)%N || (c =? 8233)%N || (c =? 8239)%N
  || (c =? 8287)%N || (c =? 12288)%N.

(** ASCII letters and digits. *)
Definition ascii_alnum (c : N) : bool :=
  ((48 <=? c) && (c <=? 57))%N || ((65 <=? c) && (c <=? 90))%N
  || ((97 <=? c) && (c <=? 122))%N.

(** [s.split()]: maximal runs of non-whitespace; [cur] is the run being
    read, most recent code point first. *)
Fixpoint split_go (cur : str) (s : str) : list str :=
  match s with
  | [] => match cur with [] => [] | _ => [rev cur] end
  | c :: s' =>
      if py_isspace c
      then match cur with
           | [] => split_go [] s'
           | _ => rev cur :: split_go [] s'
           end
      else split_go (c :: cur) s'
  end.

Definition py_split (s : str) : list str := split_go [] s.

(** [s.startswith(p)]. *)
Fixpoint startswith (p s : str) : bool :=
  match p, s with
  | [], _ => true
  | _ :: _, [] => false
  | a :: p', b :: s' => (a =? b)%N && startswith p' s'
  end.

(** [s.find(sub)]: the lowest index at which [sub] occurs, or [-1]. *)
Fixpoint find_from (sub s : str) (i : Z) : Z :=
  if startswith sub s then i
  else match s with
       | [] => (-1)%Z
       | _ :: s' => find_from sub s' (i + 1)%Z
       end.

Definition py_find (s sub : str) : Z := find_from sub s 0%Z.

(** [sub in s]. *)
Definition py_contains (sub s : str) : bool := (0 <=? py_find s sub)%Z.

(** Index adjustment of a slice bound: a negative bound counts from the
    end, and every bound is clamped to [0 .. len]. *)
Definition adjust_index (len i : Z) : Z :=
  if (i <? 0)%Z then Z.max 0 (i + len) else Z.min i len.

(** [s[lo:hi]]. *)
Definition py_slice (s : str) (lo hi : Z) : str :=
  let n := Z.of_nat (length s) in
  let lo' := adjust_index n lo in
  let hi' := adjust_index n hi in
  take (Z.to_nat (hi' - lo')) (drop (Z.to_nat lo') s).

(** [str(n)] for a non-negative integer. *)
Definition py_str_nat (n : nat) : str := s2l (NilZero.string_of_uint (Nat.to_uint n)).

(** [c * n] for a one-character string. *)
Definition py_repeat (c : str) (n : nat) : str := concat (replicate n c).

(** The format [{s:w}] for a string: left aligned, padded with spaces, never cut. *)
Definition fmt_str (w : nat) (s : str) : str :=
  s ++ replicate (w - length s) 32%N.

(** The format [{n:w}] for an integer: right aligned, padded with spaces. *)
Definition fmt_int (w : nat) (n : nat) : str :=
  let d := py_str_nat n in replicate (w - length d) 32%N ++ d.

(* ================================================================== *)
(** ** Regular expressions *)
(* ================================================================== *)

(** Character classes of the script's patterns. *)
Inductive cclass : Type :=
  | CAny                      (* [.] under [re.DOTALL] *)
  | CSpace                    (* [\s] *)
  | CWord                     (* [\w] *)
  | CNot (c : N).             (* [[^c]] *)

(** The fragment of the pattern language the script uses; the body of a
    repetition is always one character class. *)
Inductive regex : Type :=
  | RLit (l : str)            (* a run of literal characters *)
  | RPlus (c : cclass)        (* [c+], greedy *)
  | RStarLazy (c : cclass)    (* [c*?] *)
  | RGroup (n : nat) (r : regex)   (* capturing group number [n] *)
  | RSeq (r1 r2 : regex).

Declare Scope regex_scope.
Delimit Scope regex_scope with re.
Bind Scope regex_scope with regex.
Infix ";;;" := RSeq (at level 65, right associativity) : regex_scope.

(** Captured groups, most recently closed first. *)
Abbreviation caps := (list (nat * str)).

Definition group (n : nat) (cp : caps) : str :=
  match List.find (fun p => Nat.eqb (fst p) n) cp with
  | Some p => snd p
  | None => []
  end.

(** One match: its text and its groups. *)
Record rematch : Type := MkMatch { m_text : str; m_groups : caps }.

(** The result of an attempt that can raise. *)
Inductive exn : Type :=
  | FileNotFoundError
  | PermissionError
  | IsADirectoryError
  | UnicodeDecodeError
  | OSError.

Inductive outcome (A : Type) : Type :=
  | Value (a : A)
  | Raised (e : exn).
Arguments Value {A} a.
Arguments Raised {A} e.

(** What [open(path).read()] gives. *)
Inductive read_result : Type :=
  | Read (content : str)
  | Fails (e : exn).

(** The script's monad: standard output (printed lines, oldest first) as
    state, and exceptions. *)
Definition M (A : Type) : Type := list str -> list str * outcome A.

#[global] Instance M_ret : MRet M := fun A a out => (out, Value a).

#[global] Instance M_bind : MBind M := fun A B f m out =>
  match m out with
  | (out', Value a) => f a out'
  | (out', Raised e) => (out', Raised e)
  end.

Definition print (line : str) : M unit := fun out => (out ++ [line], Value tt).

Definition raise {A} (e : exn) : M A := fun out => (out, Raised e).

(** [try: body except E: handler], where [catches] says which exceptions
    are instances of [E]; others propagate. *)
Definition try_except {A} (body : M A) (catches : exn -> bool) (handler : M A) : M A :=
  fun out =>
    match body out with
    | (out', Raised e) => if catches e then handler out' else (out', Raised e)
    | r => r
    end.

(** [with open(path, 'r') as f: f.read()]. *)
Definition open_read (fs : string -> read_result) (path : string) : M str :=
  match fs path with
  | Read content => mret content
  | Fails e => raise e
  end.

(** One entry of the dictionary [descriptions]. *)
Record PlanetData : Type := MkPlanetData {
  description : str;
  word_count : nat;
  valid : bool
}.

(** A table for [str.isalnum] with no alphanumeric code point outside
    ASCII, enough for artifacts written in ASCII. *)
Definition ascii_only : N -> bool := fun _ => false.

Section Validator.

(** [str.isalnum] outside ASCII is a table of the Unicode database, which
    the interpreter supplies. *)
Variable uni_alnum : N -> bool.

Definition py_isalnum (c : N) : bool :=
  if (c <? 128)%N then ascii_alnum c else uni_alnum c.

Definition cls (c : cclass) (x : N) : bool :=
  match c with
  | CAny => true
  | CSpace => py_isspace x
  | CWord => py_isalnum x || (x =? 95)%N
  | CNot y => negb (x =? y)%N
  end.

(** [c*] greedy before the continuation [k]: take as many as possible,
    give back one at a time. *)
Fixpoint star_greedy {R} (c : cclass) (s : str) (k : str -> option R) : option R :=
  match s with
  | x :: s' =>
      if cls c x
      then match star_greedy c s' k with
           | Some r => Some r
           | None => k s
           end
      else k s
  | [] => k s
  end.

(** [c*?] before [k]: take as few as possible. *)
Fixpoint star_lazy {R} (c : cclass) (s : str) (k : str -> option R) : option R :=
  match k s with
  | Some r => Some r
  | None =>
      match s with
      | x :: s' => if cls c x then star_lazy c s' k else None
      | [] => None
      end
  end.

(** The matcher: [rmatch r s cp k] matches [r] at the start of [s] and
    hands the rest of the input and the groups to [k]; a failure of [k]
    makes the matcher try its next alternative. *)
Fixpoint rmatch {R} (r : regex) (s : str) (cp : caps)
    (k : str -> caps -> option R) : option R :=
  match r with
  | RLit l => if startswith l s then k (drop (length l) s) cp else None
  | RPlus c =>
      match s with
      | x :: s' => if cls c x then star_greedy c s' (fun s'' => k s'' cp) else None
      | [] => None
      end
  | RStarLazy c => star_lazy c s (fun s'' => k s'' cp)
  | RGroup n r' =>
      rmatch r' s cp
        (fun s' cp' => k s' ((n, take (length s - length s') s) :: cp'))
  | RSeq r1 r2 => rmatch r1 s cp (fun s' cp' => rmatch r2 s' cp' k)
  end.

(** A match of [r] that starts at the first character of [s]: the match
    and the input after it. *)
Definition match_at (r : regex) (s : str) : option (rematch * str) :=
  rmatch r s []
    (fun s' cp => Some (MkMatch (take (length s - length s') s) cp, s')).

(** [re.search]: the match at the leftmost position that has one. *)
Fixpoint search (r : regex) (s : str) : option (rematch * str) :=
  match match_at r s with
  | Some m => Some m
  | None =>
      match s with
      | [] => None
      | _ :: s' => search r s'
      end
  end.

(** The successive matches of [re.findall], each search resuming where
    the previous match ended (one character further after an empty
    match, which no pattern of the script has). [fuel] bounds the number
    of matches; the length of the input is enough. *)
Fixpoint finditer_go (fuel : nat) (r : regex) (s : str) : list rematch :=
  match fuel with
  | O => []
  | S fuel' =>
      match search r s with
      | None => []
      | Some (m, rest) =>
          m :: match m_text m, rest with
               | _ :: _, _ => finditer_go fuel' r rest
               | [], _ :: rest' => finditer_go fuel' r rest'
               | [], [] => []
               end
      end
  end.

Definition finditer (r : regex) (s : str) : list rematch :=
  finditer_go (S (length s)) r s.

(** [re.findall] for a pattern without groups, with one group and with
    two groups. *)
Definition findall0 (r : regex) (s : str) : list str :=
  map m_text (finditer r s).

Definition findall1 (r : regex) (s : str) : list str :=
  map (fun m => group 1 (m_groups m)) (finditer r s).

Definition findall2 (r : regex) (s : str) : list (str * str) :=
  map (fun m => (group 1 (m_groups m), group 2 (m_groups m))) (finditer r s).

(* ================================================================== *)
(** ** The script *)
(* ================================================================== *)

(** The pattern
    [VedicPlanet::(\w+),\s+PlanetaryPeriodQualities\s+{.*?description:\s+Q([^Q]+)Q]
    where [Q] stands for the double quote; the brace opens no repetition
    count, so it is a literal. *)
Definition planet_pattern : regex :=
  (RLit (s2l "VedicPlanet::") ;;; RGroup 1 (RPlus CWord) ;;; RLit (s2l ",") ;;;
   RPlus CSpace ;;; RLit (s2l "PlanetaryPeriodQualities") ;;; RPlus CSpace ;;;
   RLit (s2l "{") ;;; RStarLazy CAny ;;; RLit (s2l "description:") ;;;
   RPlus CSpace ;;; RLit [dquote] ;;; RGroup 2 (RPlus (CNot dquote)) ;;;
   RLit [dquote])%re.

(** [name + r':\s+vec!\[(.*?)\]'], the shape of the four list patterns. *)
Definition list_field_pattern (name : string) : regex :=
  (RLit (s2l name ++ s2l ":") ;;; RPlus CSpace ;;; RLit (s2l "vec![") ;;;
   RGroup 1 (RStarLazy CAny) ;;; RLit (s2l "]"))%re.

Definition theme_pattern : regex := list_field_pattern "themes".
Definition life_areas_pattern : regex := list_field_pattern "life_areas".
Definition challenges_pattern : regex := list_field_pattern "challenges".
Definition opportunities_pattern : regex := list_field_pattern "opportunities".

(** [r'\.to_string\(\)'] and [r'#\[test\]']. *)
Definition to_string_pattern : regex := RLit (s2l ".to_string()").
Definition test_pattern : regex := RLit (s2l "#[test]").

Definition expected_planets : list str :=
  map s2l ["Sun"; "Moon"; "Mars"; "Mercury"; "Jupiter"; "Venus"; "Saturn";
           "Rahu"; "Ketu"]%string.

(** The check and cross symbols of the report. *)
Definition check_mark : str := [10003%N].        (* U+2713 *)
Definition ballot_x : str := [10007%N].          (* U+2717 *)
Definition green_check : str := [9989%N].        (* U+2705 *)
Definition red_cross : str := [10060%N].         (* U+274C *)

Definition separator : str := py_repeat (s2l "=") 70.

(** The body of [for planet, desc in matches]. *)
Definition record_of (desc : str) : PlanetData :=
  let word_count := length (py_split desc) in
  MkPlanetData desc word_count (50 <? word_count).

Definition collect_step (st : list str * gmap str PlanetData) (m : str * str)
    : list str * gmap str PlanetData :=
  let '(planets_found, descriptions) := st in
  let '(planet, desc) := m in
  (planets_found ++ [planet], <[planet := record_of desc]> descriptions).

Definition collect (matches : list (str * str)) : list str * gmap str PlanetData :=
  foldl collect_step ([], ∅) matches.

(** The line printed for a planet that has a record. *)
Definition found_line (planet : str) (data : PlanetData) : str :=
  (if valid data then green_check else red_cross) ++ s2l " " ++
  fmt_str 10 planet ++ s2l " - " ++ fmt_int 3 (word_count data) ++
  s2l " words " ++
  (if valid data then s2l "(PASS)" else s2l "(FAIL: <50 words)").

Definition missing_line (planet : str) : str :=
  red_cross ++ s2l " " ++ fmt_str 10 planet ++ s2l " - MISSING".

(** [for planet in expected_planets], with [all_valid] as loop state. *)
Fixpoint check_planets (descriptions : gmap str PlanetData)
    (planets : list str) (all_valid : bool) : M bool :=
  match planets with
  | [] => mret all_valid
  | planet :: planets' =>
      all_valid ←
        match descriptions !! planet with
        | Some data =>
            print (found_line planet data);;
            mret (if negb (valid data) then false else all_valid)
        | None =>
            print (missing_line planet);;
            mret false
        end;
      check_planets descriptions planets' all_valid
  end.

(** [count_items(pattern, content)]. *)
Definition count_items (pattern : regex) (content : str) : nat :=
  match findall1 pattern content with
  | m0 :: _ => length (findall0 to_string_pattern m0)
  | [] => 0
  end.

(** [content[content.find(a):content.find(b)]]. *)
Definition isolate_section (content a b : str) : str :=
  py_slice content (py_find content a) (py_find content b).

Definition prompt_line (present : bool) (label : string) : str :=
  (if present then check_mark else ballot_x) ++ s2l label.

Definition passed_line : str := green_check ++ s2l " ALL VALIDATION CHECKS PASSED".
Definition failed_line : str := red_cross ++ s2l " VALIDATION FAILED - See errors above".
Definition not_found_line : str := ballot_x ++ s2l " witness.rs NOT FOUND".

(** The [try] block: what is printed when [src/witness.rs] can be read. *)
Definition inspect_witness (fs : string -> read_result) (all_valid : bool) : M bool :=
  witness_content ← open_read fs "src/witness.rs";
  let test_count := length (findall0 test_pattern witness_content) in
  print (check_mark ++ s2l " Witness module exists");;
  print (check_mark ++ s2l " Unit tests found: " ++ py_str_nat test_count);;
  let has_beginner := py_contains (s2l "generate_beginner_prompt") witness_content in
  let has_intermediate := py_contains (s2l "generate_intermediate_prompt") witness_content in
  let has_advanced := py_contains (s2l "generate_advanced_prompt") witness_content in
  print (prompt_line has_beginner " Beginner prompt function");;
  print (prompt_line has_intermediate " Intermediate prompt function");;
  print (prompt_line has_advanced " Advanced prompt function");;
  mret all_valid.

Definition is_FileNotFoundError (e : exn) : bool :=
  match e with FileNotFoundError => true | _ => false end.

(** The whole script. *)
Definition main (fs : string -> read_result) : M unit :=
  content ← open_read fs "src/wisdom_data.rs";
  let matches := findall2 planet_pattern content in
  print separator;;
  print (s2l "AGENT 35 VALIDATION REPORT");;
  print separator;;
  print [];;
  let '(planets_found, descriptions) := collect matches in
  print (check_mark ++ s2l " Planets Found: " ++
         py_str_nat (length planets_found) ++ s2l "/9");;
  print [];;
  all_valid ← check_planets descriptions expected_planets true;
  print [];;
  print separator;;
  print (s2l "DATA COMPLETENESS CHECK");;
  print separator;;
  let sun_section :=
    isolate_section content (s2l "VedicPlanet::Sun,") (s2l "VedicPlanet::Moon,") in
  let themes_count := count_items theme_pattern sun_section in
  let life_areas_count := count_items life_areas_pattern sun_section in
  let challenges_count := count_items challenges_pattern sun_section in
  let opportunities_count := count_items opportunities_pattern sun_section in
  print (s2l "Sun Planet Validation:");;
  print (s2l "  Themes:        " ++ py_str_nat themes_count ++ s2l " items");;
  print (s2l "  Life Areas:    " ++ py_str_nat life_areas_count ++ s2l " items");;
  print (s2l "  Challenges:    " ++ py_str_nat challenges_count ++ s2l " items");;
  print (s2l "  Opportunities: " ++ py_str_nat opportunities_count ++ s2l " items");;
  print [];;
  all_valid ←
    try_except (inspect_witness fs all_valid) is_FileNotFoundError
      (print not_found_line;; mret false);
  print [];;
  print separator;;
  (if all_valid && (length planets_found =? 9)
   then print passed_line
   else print failed_line);;
  print separator.

(** Running the script from an empty standard output. *)
Definition run (fs : string -> read_result) : list str * outcome unit :=
  main fs [].

(* ================================================================== *)
(** ** Derived notions used in the statements *)
(* ================================================================== *)

(** The records extracted from the primary artifact. *)
Definition extract_planet_records (content : str) : list (str * str) :=
  findall2 planet_pattern content.

(** The line the loop prints for one expected planet, and whether the
    planet leaves [all_valid] untouched. *)
Definition planet_line (descriptions : gmap str PlanetData) (planet : str) : str :=
  match descriptions !! planet with
  | Some data => found_line planet data
  | None => missing_line planet
  end.

Definition planet_ok (descriptions : gmap str PlanetData) (planet : str) : bool :=
  match descriptions !! planet with
  | Some data => valid data
  | None => false
  end.

(** The completeness check on its own: the two loops and the test on the
    number of records of the final verdict, without the witness module. *)
Definition check_completeness (matches : list (str * str)) : list str * bool :=
  let '(planets_found, descriptions) := collect matches in
  match check_planets descriptions expected_planets true [] with
  | (lines, Value all_valid) => (lines, all_valid && (length planets_found =? 9))
  | (lines, Raised _) => (lines, false)
  end.

(** The blocks of the report. *)
Definition found_count_line (n : nat) : str :=
  check_mark ++ s2l " Planets Found: " ++ py_str_nat n ++ s2l "/9".

Definition report_head (n : nat) : list str :=
  [separator; s2l "AGENT 35 VALIDATION REPORT"; separator; [];
   found_count_line n; []].

Definition report_sun (content : str) : list str :=
  let sun_section :=
    isolate_section content (s2l "VedicPlanet::Sun,") (s2l "VedicPlanet::Moon,") in
  [[]; separator; s2l "DATA COMPLETENESS CHECK"; separator;
   s2l "Sun Planet Validation:";
   s2l "  Themes:        " ++ py_str_nat (count_items theme_pattern sun_section) ++ s2l " items";
   s2l "  Life Areas:    " ++ py_str_nat (count_items life_areas_pattern sun_section) ++ s2l " items";
   s2l "  Challenges:    " ++ py_str_nat (count_items challenges_pattern sun_section) ++ s2l " items";
   s2l "  Opportunities: " ++ py_str_nat (count_items opportunities_pattern sun_section) ++ s2l " items";
   []].

Definition witness_exists_line : str := check_mark ++ s2l " Witness module exists".

Definition tests_found_line (n : nat) : str :=
  check_mark ++ s2l " Unit tests found: " ++ py_str_nat n.

(** The four lines that depend on what the witness module contains. *)
Definition witness_detail (witness_content : str) : list str :=
  [tests_found_line (length (findall0 test_pattern witness_content));
   prompt_line (py_contains (s2l "generate_beginner_prompt") witness_content)
     " Beginner prompt function";
   prompt_line (py_contains (s2l "generate_intermediate_prompt") witness_content)
     " Intermediate prompt function";
   prompt_line (py_contains (s2l "generate_advanced_prompt") witness_content)
     " Advanced prompt function"].

Definition verdict_line (ok : bool) : str :=
  if ok then passed_line else failed_line.

Definition report_tail (ok : bool) : list str :=
  [[]; separator; verdict_line ok; separator].

(** Everything printed before the witness module is opened. *)
Definition report_before_witness (content : str) : list str :=
  let matches := extract_planet_records content in
  report_head (length matches)
  ++ map (planet_line (collect matches).2) expected_planets
  ++ report_sun content.

(** Number of positions of [s] at which [sub] occurs. *)
Fixpoint count_sub (sub s : str) : nat :=
  (if startswith sub s then 1 else 0) +
  match s with
  | [] => 0
  | _ :: s' => count_sub sub s'
  end.

(** Text of a Rust list field as the data file writes it: the field name,
    a colon, white space, and a [vec!] of quoted strings converted with
    [.to_string()], each followed by a separator. *)
Definition quoted_item (s : str) : str :=
  [dquote] ++ s ++ [dquote] ++ s2l ".to_string()".

Definition items_text (sep : str) (items : list str) : str :=
  concat (map (fun s => quoted_item s ++ sep) items).

Definition list_field_text (name : string) (ws sep : str) (items : list str) : str :=
  s2l name ++ s2l ":" ++ ws ++ s2l "vec![" ++ items_text sep items ++ s2l "]".

(** The two shapes of the line of a planet that has a record. *)
Definition pass_line (planet : str) (n : nat) : str :=
  green_check ++ s2l " " ++ fmt_str 10 planet ++ s2l " - " ++ fmt_int 3 n ++
  s2l " words " ++ s2l "(PASS)".

Definition fail_line (planet : str) (n : nat) : str :=
  red_cross ++ s2l " " ++ fmt_str 10 planet ++ s2l " - " ++ fmt_int 3 n ++
  s2l " words " ++ s2l "(FAIL: <50 words)".

(** A line that begins like [passed_line]: the green check, one more
    character, then the letter A. *)
Definition looks_passed (line : str) : bool :=
  match line with
  | g :: _ :: a :: _ => (g =? 9989)%N && (a =? 65)%N
  | _ => false
  end.

(** White-space-separated text: words, each followed by a separator. *)
Definition all_space (s : str) : bool := forallb py_isspace s.
Definition no_space (s : str) : bool := forallb (fun c => negb (py_isspace c)) s.

Definition is_token (t : str * str) : Prop :=
  t.1 <> [] /\ no_space t.1 = true /\ t.2 <> [] /\ all_space t.2 = true.

Definition join_tokens (toks : list (str * str)) : str :=
  concat (map (fun t => t.1 ++ t.2) toks).

(** The marker of a converted string and the closing bracket, U+005D. *)
Definition marker : str := s2l ".to_string()".
Definition rbracket : N := 93%N.

(** *** Sample artifacts *)

Definition newline : str := [10%N].

(** [n] words separated by single spaces. *)
Definition words (n : nat) : str := concat (replicate n (s2l "light ")).

(** One entry of the data file. *)
Definition planet_block (planet : string) (desc : str) : str :=
  s2l "    m.insert(VedicPlanet::" ++ s2l planet ++
  s2l ", PlanetaryPeriodQualities {" ++ newline ++
  s2l "        " ++
  list_field_text "themes" (s2l " ") (s2l ", ") [s2l "Authority"; s2l "Vitality"] ++
  s2l "," ++ newline ++
  s2l "        description: " ++ [dquote] ++ desc ++ [dquote] ++
  s2l ".to_string()," ++ newline ++
  s2l "    });" ++ newline.

Definition data_file (entries : list (string * nat)) : str :=
  concat (map (fun e => planet_block e.1 (words e.2)) entries).

(** All nine planets, 60 words each. *)
Definition complete_data : str :=
  data_file [("Sun", 60); ("Moon", 60); ("Mars", 60); ("Mercury", 60);
             ("Jupiter", 60); ("Venus", 60); ("Saturn", 60); ("Rahu", 60);
             ("Ketu", 60)]%string.

(** Ketu is missing and the Sun has exactly 50 words. *)
Definition incomplete_data : str :=
  data_file [("Sun", 50); ("Moon", 60); ("Mars", 60); ("Mercury", 60);
             ("Jupiter", 60); ("Venus", 60); ("Saturn", 60); ("Rahu", 60)]%string.

(** All nine planets, and the Sun a second time with 70 words. *)
Definition duplicate_data : str :=
  data_file [("Sun", 60); ("Moon", 60); ("Mars", 60); ("Mercury", 60);
             ("Jupiter", 60); ("Venus", 60); ("Saturn", 60); ("Rahu", 60);
             ("Ketu", 60); ("Sun", 70)]%string.

(** A witness module with three tests and the three prompt functions,
    and one with a single test and no prompt function. *)
Definition full_witness : str :=
  s2l "fn generate_beginner_prompt() {} fn generate_intermediate_prompt() {} " ++
  s2l "fn generate_advanced_prompt() {} #[test] fn a() {} #[test] fn b() {} " ++
  s2l "#[test] fn c() {}".

Definition bare_witness : str := s2l "#[test] fn a() {}".

(** A file system with the two artifacts. *)
Definition two_files (primary witness : read_result) (path : string) : read_result :=
  if String.eqb path "src/wisdom_data.rs" then primary else witness.

(** A list field with a closing bracket inside its one item. *)
Definition bracket_items : list str := [s2l "a]b"].
Definition bracket_section : str :=
  list_field_text "themes" (s2l " ") [] bracket_items.

(** *** Notions for the further properties *)

(** [sub] occurs somewhere in [s]. *)
Definition occurs_in (sub s : str) : Prop := exists pre post, s = pre ++ sub ++ post.

(** The text of a test attribute. *)
Definition test_marker : str := s2l "#[test]".

(** The two markers of the section of the Sun. *)
Definition sun_marker : str := s2l "VedicPlanet::Sun,".
Definition moon_marker : str := s2l "VedicPlanet::Moon,".

(** A line that begins like [failed_line]: the red cross, one more
    character, then the letters V and A. *)
Definition looks_failed (line : str) : bool :=
  match line with
  | r :: _ :: v :: a :: _ => (r =? 10060)%N && (v =? 86)%N && (a =? 65)%N
  | _ => false
  end.

(** A word of a split text: not empty, and free of white space. *)
Definition is_word (w : str) : Prop := w <> [] /\ no_space w = true.

(** The text of one record as the planet pattern reads it: the marker,
    the name, a comma, white space, the type name, white space, a brace,
    any text, the description key, white space and the quoted
    description. *)
Record record_shape : Type := MkShape {
  rs_name : str;
  rs_ws1 : str;
  rs_ws2 : str;
  rs_mid : str;
  rs_ws3 : str;
  rs_desc : str
}.

Definition record_text (e : record_shape) : str :=
  s2l "VedicPlanet::" ++ rs_name e ++ s2l "," ++ rs_ws1 e ++
  s2l "PlanetaryPeriodQualities" ++ rs_ws2 e ++ s2l "{" ++ rs_mid e ++
  s2l "description:" ++ rs_ws3 e ++ [dquote] ++ rs_desc e ++ [dquote].

(** The name is a non-empty run of word characters, the three gaps are
    non-empty white space, and the description is non-empty and free of
    double quotes. *)
Definition shaped (e : record_shape) : Prop :=
  rs_name e <> [] /\ forallb (cls CWord) (rs_name e) = true /\
  rs_ws1 e <> [] /\ all_space (rs_ws1 e) = true /\
  rs_ws2 e <> [] /\ all_space (rs_ws2 e) = true /\
  rs_ws3 e <> [] /\ all_space (rs_ws3 e) = true /\
  rs_desc e <> [] /\ forallb (cls (CNot dquote)) (rs_desc e) = true.

(** A data file: records, each after some text that does not hold the
    marker, and each with no description key before its own. *)
Definition clean_before (key junk : str) : Prop :=
  py_find (junk ++ key) key = Z.of_nat (length junk).

Definition well_formed (e : str * record_shape) : Prop :=
  clean_before (s2l "VedicPlanet::") e.1 /\
  clean_before (s2l "description:") (rs_mid e.2) /\
  shaped e.2.

Definition file_text (entries : list (str * record_shape)) : str :=
  concat (map (fun e => e.1 ++ record_text e.2) entries).

(** *** More sample artifacts *)

(** A record of the data file in the shape of the planet pattern, after
    the start of its [insert] call. *)
Definition sample_entry (planet : string) (n : nat) : str * record_shape :=
  (s2l ".to_string() });" ++ newline ++ s2l "    m.insert(",
   MkShape (s2l planet) (s2l " ") (s2l " ")
     (newline ++ s2l "        " ++
      list_field_text "themes" (s2l " ") (s2l ", ") [s2l "Authority"; s2l "Vitality"] ++
      s2l "," ++ newline ++ s2l "        ")
     (s2l " ") (words n)).

Definition nine_entries : list (str * record_shape) :=
  map (fun planet => sample_entry planet 60)
    ["Sun"; "Moon"; "Mars"; "Mercury"; "Jupiter"; "Venus"; "Saturn"; "Rahu";
     "Ketu"]%string.

Definition sample_trailer : str := s2l ".to_string() });" ++ newline.

(** A data file that holds the Moon before the Sun, and one without the
    Sun. *)
Definition moon_first_data : str :=
  data_file [("Moon", 60); ("Sun", 60)]%string.

Definition moon_only_data : str := data_file [("Moon", 60)]%string.

(** All nine planets, with a first Sun of exactly 50 words that a second
    Sun of 60 words overwrites. *)
Definition overwritten_data : str :=
  data_file [("Sun", 50); ("Moon", 60); ("Mars", 60); ("Mercury", 60);
             ("Jupiter", 60); ("Venus", 60); ("Saturn", 60); ("Rahu", 60);
             ("Ketu", 60); ("Sun", 60)]%string.


(* ================================================================== *)
(** ** The monad and the report *)
(* ================================================================== *)

Lemma check_planets_run descriptions planets all_valid out :
  check_planets descriptions planets all_valid out =
  (out ++ map (planet_line descriptions) planets,
   Value (all_valid && forallb (planet_ok descriptions) planets)).
Proof.
  revert all_valid out.
  induction planets as [|planet planets IH]; intros all_valid out; simpl.
  - unfold mret, M_ret. by rewrite app_nil_r, andb_true_r.
  - unfold mbind, M_bind, planet_line, planet_ok.
    destruct (descriptions !! planet) as [data|];
      unfold print, mret, M_ret; rewrite IH, <- app_assoc; simpl;
      f_equal; f_equal.
    + destruct (valid data), all_valid; reflexivity.
    + by rewrite andb_false_r.
Qed.

(** *** The dictionary built by the first loop *)

Lemma collect_snoc matches m :
  collect (matches ++ [m]) = collect_step (collect matches) m.
Proof. unfold collect. by rewrite foldl_app. Qed.

Lemma collect_planets_found matches : (collect matches).1 = map fst matches.
Proof.
  induction matches as [|[planet desc] matches IH] using rev_ind; [done|].
  rewrite collect_snoc, map_app.
  destruct (collect matches) as [pf ds]; simpl in *. by rewrite IH.
Qed.

Lemma collect_descriptions_snoc matches planet desc :
  (collect (matches ++ [(planet, desc)])).2 =
  <[planet := record_of desc]> (collect matches).2.
Proof. rewrite collect_snoc. by destruct (collect matches). Qed.

(** A planet has no entry exactly when no match names it. *)
Lemma collect_lookup_None matches planet :
  (collect matches).2 !! planet = None <-> planet ∉ map fst matches.
Proof.
  induction matches as [|[p desc] matches IH] using rev_ind.
  - simpl. split; [intros _; apply not_elem_of_nil | done].
  - rewrite collect_descriptions_snoc, map_app, lookup_insert; simpl.
    rewrite elem_of_app, list_elem_of_singleton.
    case_decide as Hp; subst.
    + split; [done | intros []; by right].
    + rewrite IH. split; [intros ? [?|?]; congruence | intros ? ?; eauto].
Qed.

(** The entry of a planet is built from its last match. *)
Lemma collect_lookup_last before planet desc after :
  planet ∉ map fst after ->
  (collect (before ++ (planet, desc) :: after)).2 !! planet = Some (record_of desc).
Proof.
  induction after as [|[p d] after IH] using rev_ind; intros Hnot.
  - rewrite collect_descriptions_snoc. apply lookup_insert_eq.
  - rewrite map_app, not_elem_of_app in Hnot. destruct Hnot as [Hnot Hp].
    simpl in Hp. rewrite list_elem_of_singleton in Hp.
    rewrite app_comm_cons, app_assoc, collect_descriptions_snoc.
    rewrite lookup_insert_ne by congruence. by apply IH.
Qed.

(** Every entry comes from some match of that planet. *)
Lemma collect_lookup_Some matches planet data :
  (collect matches).2 !! planet = Some data ->
  exists desc, (planet, desc) ∈ matches /\ data = record_of desc.
Proof.
  induction matches as [|[p d] matches IH] using rev_ind.
  - unfold collect; simpl. by rewrite lookup_empty.
  - rewrite collect_descriptions_snoc, lookup_insert.
    case_decide as Hp; subst.
    + intros [= <-]. exists d. split; [|done].
      apply elem_of_app. right. by apply list_elem_of_singleton.
    + intros (desc & Hin & ->)%IH. exists desc. split; [|done].
      apply elem_of_app. by left.
Qed.

(** When no planet is matched twice, the entry of a planet is built from
    its one match. *)
Lemma collect_lookup_NoDup matches planet desc :
  NoDup (map fst matches) -> (planet, desc) ∈ matches ->
  (collect matches).2 !! planet = Some (record_of desc).
Proof.
  intros Hnd (before & after & ->)%list_elem_of_split.
  apply collect_lookup_last.
  rewrite map_app in Hnd. apply NoDup_app in Hnd as (_ & _ & Hnd).
  simpl in Hnd. by apply NoDup_cons in Hnd as [? _].
Qed.

Lemma check_completeness_eq matches :
  check_completeness matches =
  (map (planet_line (collect matches).2) expected_planets,
   forallb (planet_ok (collect matches).2) expected_planets
   && (length matches =? 9)).
Proof.
  unfold check_completeness.
  pose proof (collect_planets_found matches) as Hpf.
  destruct (collect matches) as [pf ds]; cbn [fst snd] in *.
  rewrite check_planets_run, Hpf, length_map. reflexivity.
Qed.

(** *** The report as a whole *)

Lemma run_primary_fails fs e :
  fs "src/wisdom_data.rs"%string = Fails e -> run fs = ([], Raised e).
Proof.
  intros Hp. unfold run, main, open_read. rewrite Hp. reflexivity.
Qed.

Lemma ret_bind {A B} (a : A) (f : A -> M B) out : (mret a ≫= f) out = f a out.
Proof. reflexivity. Qed.

Lemma print_bind {B} line (f : unit -> M B) out :
  (print line ≫= f) out = f () (out ++ [line]).
Proof. reflexivity. Qed.

Lemma raise_bind {A B} e (f : A -> M B) out :
  (raise e ≫= f) out = (out, Raised e).
Proof. reflexivity. Qed.

Lemma check_planets_bind {B} descriptions planets all_valid (f : bool -> M B) out :
  (check_planets descriptions planets all_valid ≫= f) out =
  f (all_valid && forallb (planet_ok descriptions) planets)
    (out ++ map (planet_line descriptions) planets).
Proof. unfold mbind, M_bind. by rewrite check_planets_run. Qed.

Lemma open_read_eq fs path :
  open_read fs path =
  match fs path with Read content => mret content | Fails e => raise e end.
Proof. reflexivity. Qed.

Lemma try_except_bind {A B} (body : M A) catches handler (f : A -> M B) out :
  (try_except body catches handler ≫= f) out =
  match body out with
  | (out', Value a) => f a out'
  | (out', Raised e) =>
      if catches e then (handler ≫= f) out' else (out', Raised e)
  end.
Proof.
  unfold try_except, mbind, M_bind.
  destruct (body out) as [out' [a|e]]; [done|].
  by destruct (catches e).
Qed.

Lemma ret_run {A} (a : A) out : mret (M := M) a out = (out, Value a).
Proof. reflexivity. Qed.

Lemma print_run line out : print line out = (out ++ [line], Value ()).
Proof. reflexivity. Qed.

Ltac step_script :=
  repeat first
    [ rewrite print_bind; cbv beta
    | rewrite ret_bind; cbv beta
    | rewrite raise_bind
    | rewrite check_planets_bind; cbv beta
    | rewrite ret_run
    | rewrite print_run ].

Lemma run_primary_read fs content :
  fs "src/wisdom_data.rs"%string = Read content ->
  run fs =
  match fs "src/witness.rs"%string with
  | Read witness_content =>
      (report_before_witness content ++ witness_exists_line ::
       witness_detail witness_content ++
       report_tail (check_completeness (extract_planet_records content)).2,
       Value ())
  | Fails e =>
      if is_FileNotFoundError e
      then (report_before_witness content ++ not_found_line :: report_tail false,
            Value ())
      else (report_before_witness content, Raised e)
  end.
Proof.
  intros Hp. unfold run, main, report_before_witness.
  rewrite open_read_eq, Hp, check_completeness_eq.
  step_script.
  fold (extract_planet_records content).
  pose proof (collect_planets_found (extract_planet_records content)) as Hpf.
  destruct (collect (extract_planet_records content)) as [pf ds]; cbn [fst snd] in *.
  subst pf. rewrite length_map.
  step_script. rewrite try_except_bind.
  unfold inspect_witness. rewrite open_read_eq.
  destruct (fs "src/witness.rs"%string) as [wc|e].
  - step_script. cbn [andb].
    destruct (forallb (planet_ok ds) expected_planets
              && (length (extract_planet_records content) =? 9));
      step_script; rewrite <- !app_assoc; reflexivity.
  - step_script.
    destruct (is_FileNotFoundError e).
    + step_script. cbn [andb]. step_script. rewrite <- !app_assoc. reflexivity.
    + rewrite <- !app_assoc. reflexivity.
Qed.
(** *** Lines of the report *)

Lemma found_line_cases planet data :
  found_line planet data =
  if valid data then pass_line planet (word_count data)
  else fail_line planet (word_count data).
Proof. unfold found_line, pass_line, fail_line. by destruct (valid data). Qed.

Lemma record_of_valid desc :
  valid (record_of desc) = true <-> 50 < length (py_split desc).
Proof. unfold record_of; simpl. apply Nat.ltb_lt. Qed.

Lemma expected_planets_NoDup : NoDup expected_planets.
Proof. apply (bool_decide_unpack _). by vm_compute. Qed.

Lemma expected_planets_length : length expected_planets = 9.
Proof. reflexivity. Qed.

Lemma expected_planets_cases (P : str -> Prop) :
  P (s2l "Sun") -> P (s2l "Moon") -> P (s2l "Mars") -> P (s2l "Mercury") ->
  P (s2l "Jupiter") -> P (s2l "Venus") -> P (s2l "Saturn") -> P (s2l "Rahu") ->
  P (s2l "Ketu") ->
  forall planet, planet ∈ expected_planets -> P planet.
Proof.
  intros ????????? planet Hin. unfold expected_planets in Hin. simpl in Hin.
  repeat (apply elem_of_cons in Hin as [->|Hin]; [assumption|]).
  by apply elem_of_nil in Hin.
Qed.

Lemma looks_passed_not_in lines :
  Forall (fun line => looks_passed line = false) lines -> passed_line ∉ lines.
Proof.
  intros Hall Hin. rewrite Forall_forall in Hall.
  specialize (Hall _ Hin). discriminate Hall.
Qed.

Lemma planet_line_not_passed descriptions planet :
  planet ∈ expected_planets -> looks_passed (planet_line descriptions planet) = false.
Proof.
  revert planet. apply expected_planets_cases;
    unfold planet_line; (destruct (descriptions !! _) as [data|]; [|reflexivity]);
    unfold found_line; by destruct (valid data).
Qed.

Lemma report_before_witness_not_passed content :
  Forall (fun line => looks_passed line = false) (report_before_witness content).
Proof.
  unfold report_before_witness. rewrite !Forall_app. split_and!.
  - unfold report_head. by repeat constructor.
  - apply Forall_forall. intros line (planet & -> & Hin)%list_elem_of_fmap.
    by apply planet_line_not_passed.
  - unfold report_sun. by repeat constructor.
Qed.

Lemma witness_detail_not_passed wc :
  Forall (fun line => looks_passed line = false) (witness_exists_line :: witness_detail wc).
Proof.
  unfold witness_detail, prompt_line.
  repeat constructor; try reflexivity;
    match goal with |- context [if ?b then _ else _] => by destruct b end.
Qed.

(** *** Nine records that cover the nine expected planets *)

Lemma forallb_false_elem {A} (f : A -> bool) (l : list A) :
  forallb f l = false -> exists x, x ∈ l /\ f x = false.
Proof.
  induction l as [|x l IH]; simpl; [done|].
  destruct (f x) eqn:Hx; simpl.
  - intros (y & ? & ?)%IH. exists y. split; [by right | done].
  - intros _. exists x. split; [by left | done].
Qed.

Lemma forallb_true_elem {A} (f : A -> bool) (l : list A) x :
  forallb f l = true -> x ∈ l -> f x = true.
Proof.
  intros Hall Hin. rewrite forallb_forall in Hall.
  apply Hall. by apply list_elem_of_In.
Qed.

Lemma nine_records_permutation (matches : list (str * str)) :
  (forall planet, planet ∈ expected_planets -> planet ∈ map fst matches) ->
  length matches <= 9 ->
  expected_planets ≡ₚ map fst matches.
Proof.
  intros Hall Hlen.
  apply submseteq_length_Permutation.
  - apply NoDup_submseteq; [apply expected_planets_NoDup | done].
  - by rewrite length_map, expected_planets_length.
Qed.

Lemma planet_ok_found matches planet :
  planet_ok (collect matches).2 planet = true -> planet ∈ map fst matches.
Proof.
  unfold planet_ok. intros Hok.
  destruct (decide (planet ∈ map fst matches)) as [|Hnot]; [done|].
  apply collect_lookup_None in Hnot. by rewrite Hnot in Hok.
Qed.

(** *** The completeness check *)

Lemma planet_line_missing matches planet :
  planet ∉ map fst matches ->
  planet_line (collect matches).2 planet = missing_line planet.
Proof.
  intros Hnot%collect_lookup_None. unfold planet_line. by rewrite Hnot.
Qed.


(** The check fails exactly when an expected planet has no record, or a
    record is too short, or the records are not nine. *)
Lemma check_completeness_fails_iff (matches : list (str * str)) :
  (check_completeness matches).2 = false <->
  (exists planet, planet ∈ expected_planets /\ planet ∉ map fst matches) \/
  (exists planet desc, (planet, desc) ∈ matches /\ ~ 50 < length (py_split desc)) \/
  length matches <> 9.
Proof.
  rewrite check_completeness_eq; cbn [snd]. rewrite andb_false_iff. split.
  - intros [Hbad|Hlen].
    + apply forallb_false_elem in Hbad as (planet & Hin & Hbad).
      unfold planet_ok in Hbad.
      destruct ((collect matches).2 !! planet) as [data|] eqn:Hlook.
      * apply collect_lookup_Some in Hlook as (desc & Hdesc & ->).
        right; left. exists planet, desc. split; [done|].
        rewrite <- record_of_valid. congruence.
      * left. exists planet. split; [done|]. by apply collect_lookup_None.
    + right; right. by apply Nat.eqb_neq.
  - intros Hcases.
    destruct (length matches =? 9) eqn:Hlen; [|by right].
    apply Nat.eqb_eq in Hlen.
    destruct (forallb (planet_ok (collect matches).2) expected_planets) eqn:Hall;
      [exfalso | by left].
    assert (Hfound : forall planet,
               planet ∈ expected_planets -> planet ∈ map fst matches).
    { intros planet Hin. apply planet_ok_found. by eapply forallb_true_elem. }
    destruct Hcases as [(planet & Hin & Hnot)|[(planet & desc & Hin & Hshort)|Hne]];
      [by apply Hnot, Hfound | | done].
    pose proof (nine_records_permutation matches Hfound) as Hperm.
    rewrite Hlen in Hperm. specialize (Hperm (le_n _)).
    assert (Hnd : NoDup (map fst matches)).
    { rewrite <- Hperm. apply expected_planets_NoDup. }
    assert (Hexp : planet ∈ expected_planets).
    { rewrite Hperm. apply list_elem_of_fmap. by exists (planet, desc). }
    pose proof (forallb_true_elem _ _ _ Hall Hexp) as Hok.
    unfold planet_ok in Hok.
    rewrite (collect_lookup_NoDup _ _ _ Hnd Hin) in Hok.
    by apply record_of_valid in Hok.
Qed.


(** *** Missing records and the witness module *)

Lemma check_completeness_missing matches planet :
  planet ∈ expected_planets -> planet ∉ map fst matches ->
  (check_completeness matches).2 = false.
Proof.
  intros Hin Hnot. apply check_completeness_fails_iff. left. by exists planet.
Qed.

Lemma missing_line_printed content planet :
  planet ∈ expected_planets ->
  planet ∉ map fst (extract_planet_records content) ->
  missing_line planet ∈ report_before_witness content.
Proof.
  intros Hin Hnot. unfold report_before_witness.
  rewrite !elem_of_app. right; left.
  apply list_elem_of_fmap. exists planet. split; [|done].
  symmetry. by apply planet_line_missing.
Qed.

(** C10. Of the errors raised while opening or reading the witness
    module, only the absence of the file is handled: with any other error
    the run ends in that error, after the Sun block and before any line
    about the witness module or any verdict; with the absence of the file
    the run completes. *)
Theorem witness_error_propagates fs content e :
  fs "src/wisdom_data.rs"%string = Read content ->
  fs "src/witness.rs"%string = Fails e ->
  (e <> FileNotFoundError -> run fs = (report_before_witness content, Raised e)) /\
  ((run fs).2 = Raised e <-> e <> FileNotFoundError) /\
  ((run fs).2 = Value () <-> e = FileNotFoundError).
Proof.
  intros Hprimary Hwitness.
  rewrite (run_primary_read _ _ Hprimary), Hwitness.
  destruct e; cbn [is_FileNotFoundError snd]; split_and!; try done.
  all: split; congruence.
Qed.

(** C8. With the witness module present, the verdict does not depend on
    its contents: two runs on the same primary artifact end the same way
    and print the same lines, the verdict included, except for the four
    lines that report the number of tests and the three prompt
    functions. *)
Theorem verdict_independent_of_witness_content fs1 fs2 witness1 witness2 :
  fs1 "src/wisdom_data.rs"%string = fs2 "src/wisdom_data.rs"%string ->
  fs1 "src/witness.rs"%string = Read witness1 ->
  fs2 "src/witness.rs"%string = Read witness2 ->
  (run fs1).2 = (run fs2).2 /\
  (forall content,
     fs1 "src/wisdom_data.rs"%string = Read content ->
     exists before verdict,
       run fs1 =
         (before ++ witness_detail witness1 ++ [[]; separator; verdict; separator],
          Value ()) /\
       run fs2 =
         (before ++ witness_detail witness2 ++ [[]; separator; verdict; separator],
          Value ()) /\
       verdict = verdict_line (check_completeness (extract_planet_records content)).2) /\
  (forall e,
     fs1 "src/wisdom_data.rs"%string = Fails e ->
     run fs1 = ([], Raised e) /\ run fs2 = ([], Raised e)).
Proof.
  intros Hsame Hw1 Hw2. split_and!.
  - destruct (fs1 "src/wisdom_data.rs"%string) as [content|e] eqn:Hp1;
      symmetry in Hsame.
    + by rewrite (run_primary_read _ _ Hp1), (run_primary_read _ _ Hsame), Hw1, Hw2.
    + by rewrite (run_primary_fails _ _ Hp1), (run_primary_fails _ _ Hsame).
  - intros content Hp1. assert (Hp2 := Hp1). rewrite Hsame in Hp2.
    exists (report_before_witness content ++ [witness_exists_line]),
           (verdict_line (check_completeness (extract_planet_records content)).2).
    rewrite (run_primary_read _ _ Hp1), (run_primary_read _ _ Hp2), Hw1, Hw2.
    rewrite <- !app_assoc. done.
  - intros e Hp1. assert (Hp2 := Hp1). rewrite Hsame in Hp2.
    by rewrite (run_primary_fails _ _ Hp1), (run_primary_fails _ _ Hp2).
Qed.

(** *** Splitting on white space *)

Lemma split_go_word cur word rest :
  no_space word = true ->
  split_go cur (word ++ rest) = split_go (rev word ++ cur) rest.
Proof.
  revert cur. induction word as [|c word IH]; intros cur Hword; [done|].
  simpl in Hword. apply andb_true_iff in Hword as [Hc Hword].
  apply negb_true_iff in Hc. simpl. rewrite Hc, IH by done.
  by rewrite <- app_assoc.
Qed.

Lemma split_go_lead lead rest :
  all_space lead = true -> split_go [] (lead ++ rest) = split_go [] rest.
Proof.
  induction lead as [|c lead IH]; intros Hlead; [done|].
  simpl in Hlead. apply andb_true_iff in Hlead as [Hc Hlead].
  simpl. rewrite Hc. by apply IH.
Qed.

Lemma split_go_sep cur sep rest :
  cur <> [] -> sep <> [] -> all_space sep = true ->
  split_go cur (sep ++ rest) = rev cur :: split_go [] rest.
Proof.
  intros Hcur Hsep Hspace. destruct sep as [|c sep]; [done|].
  simpl in Hspace. apply andb_true_iff in Hspace as [Hc Hspace].
  simpl. rewrite Hc. destruct cur; [done|].
  f_equal. by apply split_go_lead.
Qed.

Lemma split_go_tokens toks last :
  Forall is_token toks -> no_space last = true ->
  split_go [] (join_tokens toks ++ last) =
  map fst toks ++ (if last is [] then [] else [last]).
Proof.
  intros Htoks Hlast. induction Htoks as [|[word sep] toks Htok _ IH].
  - simpl. rewrite <- (app_nil_r last) at 1.
    rewrite split_go_word by done. rewrite app_nil_r. simpl.
    destruct last as [|c last]; [done|].
    destruct (rev (c :: last)) eqn:Hrev.
    + apply (f_equal (@length N)) in Hrev. rewrite length_rev in Hrev. done.
    + by rewrite <- Hrev, rev_involutive.
  - destruct Htok as (Hne & Hword & Hsep & Hspace); simpl in *.
    unfold join_tokens; simpl. fold (join_tokens toks).
    rewrite <- !app_assoc, split_go_word by done. rewrite app_nil_r.
    rewrite split_go_sep; [|by destruct word using rev_ind; [|rewrite rev_unit]|done..].
    by rewrite rev_involutive, IH.
Qed.

(** [split] returns the words of a text made of words and separators. *)
Lemma py_split_tokens lead toks last :
  all_space lead = true -> Forall is_token toks -> no_space last = true ->
  py_split (lead ++ join_tokens toks ++ last) =
  map fst toks ++ (if last is [] then [] else [last]).
Proof.
  intros Hlead Htoks Hlast. unfold py_split.
  rewrite split_go_lead by done. by apply split_go_tokens.
Qed.

(** *** The verdict of complete runs *)

Lemma run_completeness_fails fs content :
  fs "src/wisdom_data.rs"%string = Read content ->
  (check_completeness (extract_planet_records content)).2 = false ->
  (forall e, fs "src/witness.rs"%string = Fails e -> e = FileNotFoundError) ->
  exists lines, run fs = (lines ++ [failed_line; separator], Value ()).
Proof.
  intros Hprimary Hfail Hcaught.
  rewrite (run_primary_read _ _ Hprimary), Hfail.
  destruct (fs "src/witness.rs"%string) as [wc|e].
  - exists (report_before_witness content ++
            witness_exists_line :: witness_detail wc ++ [[]; separator]).
    by rewrite <- !app_assoc.
  - rewrite (Hcaught e eq_refl). cbn [is_FileNotFoundError].
    exists (report_before_witness content ++ [not_found_line; []; separator]).
    by rewrite <- !app_assoc.
Qed.

Lemma planet_lines_all_pass matches n :
  map fst matches ≡ₚ expected_planets ->
  (forall planet desc, (planet, desc) ∈ matches -> length (py_split desc) = n) ->
  50 < n ->
  map (planet_line (collect matches).2) expected_planets =
  map (fun planet => pass_line planet n) expected_planets.
Proof.
  intros Hperm Hwords Hn.
  assert (Hnd : NoDup (map fst matches)).
  { rewrite Hperm. apply expected_planets_NoDup. }
  apply map_ext_in. intros planet Hin%list_elem_of_In.
  rewrite <- Hperm in Hin.
  apply list_elem_of_fmap in Hin as ([p desc] & -> & Hin); simpl.
  unfold planet_line.
  rewrite (collect_lookup_NoDup _ _ _ Hnd Hin), found_line_cases.
  unfold record_of; simpl. rewrite (Hwords _ _ Hin).
  apply Nat.ltb_lt in Hn. by rewrite Hn.
Qed.

Lemma check_completeness_passes matches :
  map fst matches ≡ₚ expected_planets ->
  (forall planet desc, (planet, desc) ∈ matches -> 50 < length (py_split desc)) ->
  (check_completeness matches).2 = true.
Proof.
  intros Hperm Hwords.
  destruct (check_completeness matches).2 eqn:Hres; [done|exfalso].
  apply check_completeness_fails_iff in Hres
    as [(planet & Hin & Hnot)|[(planet & desc & Hin & Hshort)|Hlen]].
  - apply Hnot. by rewrite Hperm.
  - by apply Hshort, (Hwords planet).
  - apply Hlen. by rewrite <- (length_map fst), Hperm.
Qed.

(** C7. When extraction yields the nine expected identifiers, once each,
    every description of 60 words, and the witness module exists with 3
    test markers and the three prompt functions, the report prints 9/9
    found, a PASS line of 60 words for every planet, a check for each
    item of the witness module, and ALL VALIDATION CHECKS PASSED as its
    aggregate line. *)
Theorem nine_valid_planets_pass fs content witness_content :
  fs "src/wisdom_data.rs"%string = Read content ->
  fs "src/witness.rs"%string = Read witness_content ->
  map fst (extract_planet_records content) ≡ₚ expected_planets ->
  (forall planet desc,
     (planet, desc) ∈ extract_planet_records content ->
     length (py_split desc) = 60) ->
  length (findall0 test_pattern witness_content) = 3 ->
  py_contains (s2l "generate_beginner_prompt") witness_content = true ->
  py_contains (s2l "generate_intermediate_prompt") witness_content = true ->
  py_contains (s2l "generate_advanced_prompt") witness_content = true ->
  run fs =
    ([separator; s2l "AGENT 35 VALIDATION REPORT"; separator; [];
      check_mark ++ s2l " Planets Found: 9/9"; []] ++
     map (fun planet => green_check ++ s2l " " ++ fmt_str 10 planet ++
                        s2l " -  60 words (PASS)") expected_planets ++
     report_sun content ++
     [check_mark ++ s2l " Witness module exists";
      check_mark ++ s2l " Unit tests found: 3";
      check_mark ++ s2l " Beginner prompt function";
      check_mark ++ s2l " Intermediate prompt function";
      check_mark ++ s2l " Advanced prompt function";
      []; separator;
      green_check ++ s2l " ALL VALIDATION CHECKS PASSED";
      separator],
     Value ()).
Proof.
  intros Hprimary Hwitness Hperm Hwords Htests Hbeg Hint Hadv.
  rewrite (run_primary_read _ _ Hprimary), Hwitness.
  rewrite check_completeness_passes;
    [|done|by intros planet desc ->%Hwords; lia].
  unfold report_before_witness, witness_detail.
  rewrite (planet_lines_all_pass _ 60) by (done || lia).
  rewrite Htests, Hbeg, Hint, Hadv.
  assert (Hlen : length (extract_planet_records content) = 9).
  { by rewrite <- (length_map fst), Hperm. }
  rewrite Hlen, <- !app_assoc. reflexivity.
Qed.

(** *** Prefixes, [find] and slices *)

Lemma startswith_app p rest : startswith p (p ++ rest) = true.
Proof. induction p as [|c p IH]; [done|]. simpl. by rewrite N.eqb_refl. Qed.

Lemma startswith_true p s : startswith p s = true <-> exists rest, s = p ++ rest.
Proof.
  split; [|intros [rest ->]; apply startswith_app].
  revert s. induction p as [|a p IH]; intros s; [by exists s|].
  destruct s as [|b s]; simpl; [done|].
  intros [->%N.eqb_eq [rest ->]%IH]%andb_true_iff. by exists rest.
Qed.

Lemma startswith_drop p s :
  startswith p s = true -> s = p ++ drop (length p) s.
Proof.
  intros [rest ->]%startswith_true. by rewrite drop_app_length.
Qed.

Lemma find_from_range sub s k :
  (0 <= k)%Z -> find_from sub s k = (-1)%Z \/ (k <= find_from sub s k)%Z.
Proof.
  revert k. induction s as [|c s IH]; intros k Hk; simpl;
    destruct (startswith sub _); try lia.
  destruct (IH (k + 1)%Z); lia.
Qed.

(** [find_from] returns the first position at which [sub] occurs. *)
Lemma find_from_found sub s k i :
  (0 <= k)%Z ->
  find_from sub s k = (k + Z.of_nat i)%Z ->
  i <= length s /\ startswith sub (drop i s) = true /\
  forall j, j < i -> startswith sub (drop j s) = false.
Proof.
  revert k i. induction s as [|c s IH]; intros k i Hk; simpl.
  - destruct (startswith sub []) eqn:Hsub; intros Hfind; [|lia].
    assert (i = 0) as -> by lia. split_and!; [done..|lia].
  - destruct (startswith sub (c :: s)) eqn:Hsub; intros Hfind.
    + assert (i = 0) as -> by lia. split_and!; [lia|done|lia].
    + destruct i as [|i].
      * destruct (find_from_range sub s (k + 1)%Z); lia.
      * destruct (IH (k + 1)%Z i) as (Hlen & Hat & Hbefore); [lia..|].
        split_and!; [lia|done|].
        intros [|j] Hj; [done|]. apply Hbefore. lia.
Qed.

Lemma py_find_found s sub i :
  py_find s sub = Z.of_nat i ->
  i <= length s /\ startswith sub (drop i s) = true /\
  forall j, j < i -> startswith sub (drop j s) = false.
Proof. unfold py_find. intros Hfind. by apply (find_from_found _ _ 0%Z). Qed.



(** *** The matcher on the script's patterns *)

Lemma star_greedy_run {R} c run rest (k : str -> option R) res :
  forallb (cls c) run = true ->
  match rest with x :: _ => cls c x = false | [] => True end ->
  k rest = Some res ->
  star_greedy c (run ++ rest) k = Some res.
Proof.
  intros Hrun Hstop Hk. induction run as [|x run IH]; simpl.
  - destruct rest as [|y rest]; simpl; [done|]. by rewrite Hstop.
  - simpl in Hrun. apply andb_true_iff in Hrun as [Hx Hrun].
    by rewrite Hx, IH.
Qed.

Lemma star_lazy_skip {R} c skipped rest (k : str -> option R) :
  forallb (cls c) skipped = true ->
  (forall i, i < length skipped -> k (drop i skipped ++ rest) = None) ->
  star_lazy c (skipped ++ rest) k = star_lazy c rest k.
Proof.
  induction skipped as [|x skipped IH]; intros Hcls Hfail; [done|].
  simpl in Hcls. apply andb_true_iff in Hcls as [Hx Hcls].
  change ((x :: skipped) ++ rest) with (x :: (skipped ++ rest)).
  pose proof (Hfail 0 ltac:(simpl; lia)) as Hhere. simpl in Hhere.
  cbn [star_lazy]. rewrite Hhere, Hx.
  apply IH; [done|]. intros i Hi. apply (Hfail (S i)). simpl. lia.
Qed.

Lemma star_lazy_now {R} c s (k : str -> option R) res :
  k s = Some res -> star_lazy c s k = Some res.
Proof. intros Hk. destruct s; simpl; by rewrite Hk. Qed.

Lemma search_skip r skipped rest :
  (forall i, i < length skipped -> match_at r (drop i (skipped ++ rest)) = None) ->
  search r (skipped ++ rest) = search r rest.
Proof.
  induction skipped as [|x skipped IH]; intros Hfail; [done|].
  change ((x :: skipped) ++ rest) with (x :: (skipped ++ rest)).
  pose proof (Hfail 0 ltac:(simpl; lia)) as Hhere. simpl in Hhere.
  cbn [search]. rewrite Hhere.
  apply IH. intros i Hi. apply (Hfail (S i)). simpl. lia.
Qed.

Lemma search_none r s :
  (forall i, match_at r (drop i s) = None) -> search r s = None.
Proof.
  induction s as [|x s IH]; intros Hfail; simpl.
  - pose proof (Hfail 0) as Hhere. simpl in Hhere. by rewrite Hhere.
  - pose proof (Hfail 0) as Hhere. simpl in Hhere. rewrite Hhere.
    apply IH. intros i. apply (Hfail (S i)).
Qed.

Lemma finditer_search_none r s : search r s = None -> finditer r s = [].
Proof. intros Hs. unfold finditer. simpl. by rewrite Hs. Qed.

Lemma finditer_search_some r s m rest :
  search r s = Some (m, rest) -> exists more, finditer r s = m :: more.
Proof. intros Hs. unfold finditer. simpl. rewrite Hs. eauto. Qed.

(** A list pattern matches nowhere without its key. *)
Lemma match_at_list_field_key name s :
  startswith (s2l name ++ s2l ":") s = false ->
  match_at (list_field_pattern name) s = None.
Proof.
  intros Hkey. unfold match_at, list_field_pattern. cbn [rmatch]. by rewrite Hkey.
Qed.

Lemma startswith_rbracket body post :
  rbracket ∉ body ->
  forall i, i < length body ->
  startswith (s2l "]") (drop i body ++ post) = false.
Proof.
  induction body as [|x body IH]; intros Hnot i Hi; simpl in Hi; [lia|].
  apply not_elem_of_cons in Hnot as [Hx Hnot].
  destruct i as [|i].
  - change (startswith (s2l "]") (drop 0 (x :: body) ++ post))
      with ((rbracket =? x)%N && true).
    rewrite andb_true_r. by apply N.eqb_neq.
  - change (drop (S i) (x :: body)) with (drop i body). apply IH; [done|lia].
Qed.

(** A list pattern at the start of the text of a list field: the group
    is the text up to the first closing bracket. *)
Lemma match_at_list_field name ws body post :
  ws <> [] -> all_space ws = true -> rbracket ∉ body ->
  exists text,
    match_at (list_field_pattern name)
      ((s2l name ++ s2l ":") ++ ws ++ s2l "vec![" ++ body ++ s2l "]" ++ post) =
    Some (MkMatch text [(1, body)], post).
Proof.
  intros Hne Hws Hbody.
  destruct ws as [|w ws]; [done|]. eexists.
  unfold match_at, list_field_pattern. cbn [rmatch].
  rewrite startswith_app, drop_app_length.
  simpl in Hws. apply andb_true_iff in Hws as [Hw Hws].
  change ((w :: ws) ++ ?l) with (w :: (ws ++ l)). cbn [cls]. rewrite Hw.
  erewrite star_greedy_run; [reflexivity|exact Hws|reflexivity|].
  rewrite startswith_app, drop_app_length.
  rewrite star_lazy_skip; [| |].
  - erewrite star_lazy_now; [reflexivity|].
    change (startswith (s2l "]") (s2l "]" ++ post)) with true. cbv iota.
    change (drop (length (s2l "]")) (s2l "]" ++ post)) with post.
    rewrite (length_app body), Nat.add_sub, take_app_length. reflexivity.
  - clear. by induction body.
  - intros i Hi. by rewrite startswith_rbracket.
Qed.

(** *** Counting the markers *)

Lemma match_at_lit l s :
  match_at (RLit l) s =
  if startswith l s
  then Some (MkMatch (take (length s - length (drop (length l) s)) s) [],
             drop (length l) s)
  else None.
Proof. reflexivity. Qed.

(** What [search] finds for a literal: the first occurrence, and the
    text after it. *)
Lemma search_lit l s :
  match search (RLit l) s with
  | None => count_sub l s = 0
  | Some (m, rest) =>
      m_text m = l /\ length (l ++ rest) <= length s /\
      count_sub l s = count_sub l (l ++ rest)
  end.
Proof.
  induction s as [|x s IH]; cbn [search]; rewrite match_at_lit.
  - destruct (startswith l []) eqn:Hl; [|by simpl; rewrite Hl].
    apply startswith_true in Hl as [rest Hrest].
    symmetry in Hrest. apply app_eq_nil in Hrest as [-> ->]. done.
  - destruct (startswith l (x :: s)) eqn:Hl.
    + pose proof (startswith_drop _ _ Hl) as Hsplit.
      rewrite <- Hsplit. split_and!; [|done..].
      rewrite Hsplit at 1 3. rewrite length_app, Nat.add_sub.
      by rewrite take_app_length.
    + destruct (search (RLit l) s) as [[m rest]|].
      * destruct IH as (Hm & Hlen & Hcount). split_and!; [done|simpl; lia|].
        simpl. by rewrite Hl.
      * simpl. by rewrite Hl.
Qed.

Lemma count_sub_marker rest :
  count_sub marker (marker ++ rest) = S (count_sub marker rest).
Proof. reflexivity. Qed.

Lemma finditer_go_marker fuel s :
  length s < fuel ->
  length (finditer_go fuel to_string_pattern s) = count_sub marker s.
Proof.
  revert s. induction fuel as [|fuel IH]; intros s Hfuel; [lia|].
  cbn [finditer_go]. unfold to_string_pattern. fold marker.
  pose proof (search_lit marker s) as Hsearch.
  destruct (search (RLit marker) s) as [[m rest]|]; [|done].
  destruct Hsearch as (Hm & Hlen & Hcount).
  rewrite Hm. change marker with (46%N :: tl marker) at 1. cbv iota.
  cbn [length]. fold marker. unfold to_string_pattern in IH. fold marker in IH.
  rewrite IH, Hcount, count_sub_marker; [done|].
  rewrite length_app in Hlen. change (length marker) with 12 in Hlen. lia.
Qed.

(** [findall] of the marker pattern counts the occurrences of the marker. *)
Lemma findall0_marker s :
  length (findall0 to_string_pattern s) = count_sub marker s.
Proof.
  unfold findall0, finditer. rewrite length_map.
  apply finditer_go_marker. lia.
Qed.

Lemma startswith_barrier m x c y :
  c ∉ m -> startswith m (x ++ c :: y) = startswith m x.
Proof.
  revert x. induction m as [|a m IH]; intros x Hc; [done|].
  apply not_elem_of_cons in Hc as [Hca Hc].
  destruct x as [|b x]; simpl.
  - apply andb_false_iff. left. apply N.eqb_neq. congruence.
  - by rewrite IH.
Qed.

Lemma count_sub_cons m b s :
  count_sub m (b :: s) = (if startswith m (b :: s) then 1 else 0) + count_sub m s.
Proof. reflexivity. Qed.

Lemma count_sub_barrier m x c y :
  m <> [] -> c ∉ m ->
  count_sub m (x ++ c :: y) = count_sub m x + count_sub m (c :: y).
Proof.
  intros Hm Hc. induction x as [|b x IH].
  - destruct m; [done|]. reflexivity.
  - change ((b :: x) ++ c :: y) with (b :: (x ++ c :: y)).
    rewrite (count_sub_cons m b (x ++ c :: y)), (count_sub_cons m b x), IH.
    change (b :: (x ++ c :: y)) with ((b :: x) ++ c :: y).
    rewrite startswith_barrier by done. lia.
Qed.

Lemma items_text_shape sep items :
  items_text sep items = [] \/ exists rest, items_text sep items = dquote :: rest.
Proof. destruct items; [by left|right]. simpl. eauto. Qed.

Lemma dquote_not_in_marker : dquote ∉ marker.
Proof. apply (bool_decide_unpack _). by vm_compute. Qed.

Lemma marker_nonempty : marker <> [].
Proof. done. Qed.

Lemma items_text_cons sep s items :
  items_text sep (s :: items) =
  dquote :: s ++ dquote :: marker ++ sep ++ items_text sep items.
Proof.
  unfold items_text, quoted_item; simpl. by rewrite <- !app_assoc.
Qed.

Lemma count_sub_dquote l : count_sub marker (dquote :: l) = count_sub marker l.
Proof. reflexivity. Qed.

(** A list of [k] quoted items holds [k] markers, when neither the items
    nor the separator hold one. *)
Lemma count_sub_items_text sep items :
  count_sub marker sep = 0 ->
  (forall s, s ∈ items -> count_sub marker s = 0) ->
  count_sub marker (items_text sep items) = length items.
Proof.
  intros Hsep Hitems. induction items as [|s items IH]; [done|].
  rewrite items_text_cons, count_sub_dquote.
  rewrite count_sub_barrier by (apply marker_nonempty || apply dquote_not_in_marker).
  rewrite Hitems by (by left).
  rewrite count_sub_dquote, count_sub_marker. cbn [length Nat.add]. f_equal.
  rewrite <- IH by (intros; apply Hitems; by right).
  destruct (items_text_shape sep items) as [->|[rest ->]].
  - rewrite app_nil_r. by rewrite Hsep.
  - rewrite count_sub_barrier
      by (apply marker_nonempty || apply dquote_not_in_marker). lia.
Qed.

(** *** Counting the items of a list field *)

Lemma find_from_absent sub s k :
  (0 <= k)%Z -> find_from sub s k = (-1)%Z ->
  forall i, startswith sub (drop i s) = false.
Proof.
  revert k. induction s as [|c s IH]; intros k Hk; simpl.
  - destruct (startswith sub []) eqn:Hsub; [lia|]. intros _ i. by destruct i.
  - destruct (startswith sub (c :: s)) eqn:Hsub; [lia|].
    intros Hfind [|i]; [done|]. simpl. apply (IH (k + 1)%Z); [lia|done].
Qed.

Lemma py_contains_false sub s :
  py_contains sub s = false -> forall i, startswith sub (drop i s) = false.
Proof.
  unfold py_contains, py_find. intros Hneg%Z.leb_gt.
  apply (find_from_absent _ _ 0%Z); [done|].
  destruct (find_from_range sub s 0%Z); lia.
Qed.

Lemma search_here r s m : match_at r s = Some m -> search r s = Some m.
Proof. intros Hm. destruct s; simpl; by rewrite Hm. Qed.

Lemma count_items_no_match pattern text :
  search pattern text = None -> count_items pattern text = 0.
Proof.
  intros Hs. unfold count_items, findall1.
  by rewrite (finditer_search_none _ _ Hs).
Qed.

(** C5, as amended. Applied to a section in which the first occurrence
    of the field name and its colon is followed by white space and a
    [vec!] list, [count_items] returns the number of [.to_string()]
    markers in the text between the opening bracket and the first closing
    bracket after it: [k] for a list of [k] quoted items that hold
    neither a closing bracket nor the marker. It returns 0 when the
    section has no match of the field pattern, as when it does not hold
    the field name and colon. *)
Theorem count_items_list_field name pre ws body post :
  let key := s2l name ++ s2l ":" in
  let section := pre ++ key ++ ws ++ s2l "vec![" ++ body ++ s2l "]" ++ post in
  py_find section key = Z.of_nat (length pre) ->
  ws <> [] -> all_space ws = true -> rbracket ∉ body ->
  count_items (list_field_pattern name) section = count_sub marker body /\
  (forall sep items,
     body = items_text sep items ->
     count_sub marker sep = 0 ->
     (forall s, s ∈ items -> count_sub marker s = 0) ->
     count_items (list_field_pattern name) section = length items) /\
  (forall text,
     search (list_field_pattern name) text = None ->
     count_items (list_field_pattern name) text = 0) /\
  (forall text,
     py_contains key text = false ->
     count_items (list_field_pattern name) text = 0).
Proof.
  intros key section Hfind Hne Hws Hbody.
  assert (Hcount : count_items (list_field_pattern name) section =
                   count_sub marker body).
  { destruct (py_find_found _ _ _ Hfind) as (_ & _ & Hbefore).
    destruct (match_at_list_field name ws body post Hne Hws Hbody)
      as [text Hmatch].
    unfold count_items, findall1.
    assert (Hsearch : search (list_field_pattern name) section =
                      Some (MkMatch text [(1, body)], post)).
    { unfold section. rewrite search_skip.
      - by apply search_here.
      - intros i Hi. apply match_at_list_field_key. by apply Hbefore. }
    destruct (finditer_search_some _ _ _ _ Hsearch) as [more ->].
    simpl map. change (group 1 [(1, body)]) with body.
    apply findall0_marker. }
  split_and!.
  - done.
  - intros sep items -> Hsep Hitems. rewrite Hcount.
    by apply count_sub_items_text.
  - apply count_items_no_match.
  - intros text Habsent. apply count_items_no_match, search_none.
    intros i. apply match_at_list_field_key. by apply py_contains_false.
Qed.

(** *** The matcher consumes its input; [finditer] never runs out of fuel *)

Lemma star_greedy_suffix {R} c s (k : str -> option R) res :
  star_greedy c s k = Some res ->
  exists s', s' `suffix_of` s /\ k s' = Some res.
Proof.
  induction s as [|x s IH]; simpl; intros Hres; [by exists []|].
  destruct (cls c x); [|by exists (x :: s)].
  destruct (star_greedy c s k) as [r|]; [|by exists (x :: s)].
  destruct (IH Hres) as (s' & Hsuf & Hk).
  exists s'. split; [by apply suffix_cons_r | done].
Qed.

Lemma star_lazy_suffix {R} c s (k : str -> option R) res :
  star_lazy c s k = Some res ->
  exists s', s' `suffix_of` s /\ k s' = Some res.
Proof.
  induction s as [|x s IH]; simpl; intros Hres.
  - destruct (k []) eqn:Hk; [|done]. exists []. split; [done | congruence].
  - destruct (k (x :: s)) eqn:Hk; [exists (x :: s); split; [done | congruence]|].
    destruct (cls c x); [|done].
    destruct (IH Hres) as (s' & Hsuf & Hk').
    exists s'. split; [by apply suffix_cons_r | done].
Qed.

Lemma rmatch_suffix {R} r s cp (k : str -> caps -> option R) res :
  rmatch r s cp k = Some res ->
  exists s' cp', s' `suffix_of` s /\ k s' cp' = Some res.
Proof.
  revert s cp k. induction r as [l|c|c|n r IH|r1 IH1 r2 IH2];
    intros s cp k; cbn [rmatch]; intros Hres.
  - destruct (startswith l s); [|done].
    exists (drop (length l) s), cp. split; [apply suffix_drop | done].
  - destruct s as [|x s]; [done|]. destruct (cls c x); [|done].
    apply star_greedy_suffix in Hres as (s' & Hsuf & Hk).
    exists s', cp. split; [by apply suffix_cons_r | done].
  - apply star_lazy_suffix in Hres as (s' & Hsuf & Hk). by exists s', cp.
  - apply IH in Hres as (s' & cp' & Hsuf & Hk). eauto.
  - apply IH1 in Hres as (s1 & cp1 & Hsuf1 & Hres).
    apply IH2 in Hres as (s2 & cp2 & Hsuf2 & Hk).
    exists s2, cp2. split; [by etrans | done].
Qed.

Lemma match_at_suffix r s m rest :
  match_at r s = Some (m, rest) ->
  rest `suffix_of` s /\ m_text m = take (length s - length rest) s.
Proof.
  unfold match_at. intros (s' & cp' & Hsuf & [= <- <-])%rmatch_suffix. done.
Qed.

(** After a match, what is left to scan is shorter than the input. *)
Lemma search_shrinks r s m rest :
  search r s = Some (m, rest) ->
  length rest <= length s /\ (m_text m <> [] -> length rest < length s).
Proof.
  induction s as [|x s IH]; cbn [search].
  - destruct (match_at r []) as [[m' rest']|] eqn:Hm; [|done].
    intros [= -> ->]. apply match_at_suffix in Hm as [Hsuf%suffix_length Htext].
    split; [done|]. rewrite Htext. by destruct (length [] - length rest).
  - destruct (match_at r (x :: s)) as [[m' rest']|] eqn:Hm.
    + intros [= -> ->]. apply match_at_suffix in Hm as [Hsuf%suffix_length Htext].
      split; [done|]. rewrite Htext. intros Hne.
      destruct (decide (length rest < length (x :: s))); [done|].
      exfalso. apply Hne.
      replace (length (x :: s) - length rest) with 0 by lia. done.
    + intros [Hle Hlt]%IH. simpl. split; [lia|]. intros Hne. specialize (Hlt Hne). lia.
Qed.

(** Any fuel above the length of the input gives the same matches. *)
Lemma finditer_go_fuel r fuel1 fuel2 s :
  length s < fuel1 -> length s < fuel2 ->
  finditer_go fuel1 r s = finditer_go fuel2 r s.
Proof.
  revert fuel2 s. induction fuel1 as [|fuel1 IH]; intros fuel2 s H1 H2; [lia|].
  destruct fuel2 as [|fuel2]; [lia|]. cbn [finditer_go].
  destruct (search r s) as [[m rest]|] eqn:Hsearch; [|done].
  apply search_shrinks in Hsearch as [Hle Hlt]. f_equal.
  destruct (m_text m) as [|y text].
  - destruct rest as [|z rest]; [done|]. simpl in Hle. apply IH; lia.
  - assert (length rest < length s) by (by apply Hlt). apply IH; lia.
Qed.

Lemma finditer_fuel r fuel s :
  length s < fuel -> finditer_go fuel r s = finditer r s.
Proof. intros Hfuel. apply finditer_go_fuel; [done|lia]. Qed.

(** A pattern that begins with a non-empty literal has no empty match, so
    the rule of [finditer] for empty matches never applies to the
    patterns of the script. *)
Lemma match_at_literal_first l r s m rest :
  l <> [] ->
  match_at (RLit l ;;; r) s = Some (m, rest) \/ match_at (RLit l) s = Some (m, rest) ->
  m_text m <> [].
Proof.
  intros Hl Hmatch.
  assert (Hshape : startswith l s = true /\
                   rest `suffix_of` drop (length l) s /\
                   m_text m = take (length s - length rest) s).
  { destruct Hmatch as [Hmatch|Hmatch].
    - pose proof (match_at_suffix _ _ _ _ Hmatch) as [_ Htext].
      unfold match_at in Hmatch. cbn [rmatch] in Hmatch.
      destruct (startswith l s); [|done].
      apply rmatch_suffix in Hmatch as (s' & cp' & Hsuf & [= _ <-]). done.
    - pose proof (match_at_suffix _ _ _ _ Hmatch) as [_ Htext].
      rewrite match_at_lit in Hmatch.
      destruct (startswith l s); [|done]. by injection Hmatch as _ <-. }
  destruct Hshape as (Hstart & Hsuf%suffix_length & ->).
  apply startswith_drop in Hstart. rewrite length_drop in Hsuf.
  assert (Hlen : length l <= length s).
  { rewrite Hstart, length_app. lia. }
  intros Hnil%(f_equal length). rewrite length_take in Hnil. simpl in Hnil.
  destruct l; [done|]. simpl in *. lia.
Qed.

(* ================================================================== *)
(** ** Further properties of the script *)
(* ================================================================== *)

(** *** The section of the Sun when a marker is missing or misplaced *)

Lemma py_find_cases s sub :
  py_find s sub = (-1)%Z \/ exists i, py_find s sub = Z.of_nat i.
Proof.
  unfold py_find. destruct (find_from_range sub s 0%Z) as [Hnone|Hpos]; [done|by left|].
  right. exists (Z.to_nat (find_from sub s 0)). by rewrite Z2Nat.id.
Qed.

Lemma startswith_length p s : startswith p s = true -> length p <= length s.
Proof.
  intros [rest ->]%startswith_true. rewrite length_app. lia.
Qed.

(** An occurrence lies inside the text. *)
Lemma py_find_fits s sub i :
  py_find s sub = Z.of_nat i -> i + length sub <= length s.
Proof.
  intros (Hi & Hat%startswith_length & _)%py_find_found.
  rewrite length_drop in Hat. lia.
Qed.

Lemma py_find_empty s : py_find s [] = 0%Z.
Proof. unfold py_find. by destruct s. Qed.

Lemma py_contains_find sub s :
  py_contains sub s = false <-> py_find s sub = (-1)%Z.
Proof.
  unfold py_contains. rewrite Z.leb_gt.
  destruct (py_find_cases s sub) as [->|[i ->]]; lia.
Qed.

(** Without the start marker the slice starts at the last character and
    has nothing before its end. *)
Lemma isolate_section_no_start text a b :
  py_find text a = (-1)%Z -> isolate_section text a b = [].
Proof.
  intros Ha. unfold isolate_section, py_slice. rewrite Ha.
  assert (Hend : (adjust_index (Z.of_nat (length text)) (py_find text b)
                  <= adjust_index (Z.of_nat (length text)) (-1))%Z
                 \/ text = []).
  { destruct text as [|c text]; [by right|left].
    unfold adjust_index. change (-1 <? 0)%Z with true. cbv iota.
    destruct (py_find_cases (c :: text) b) as [->|[j Hj]]; [done|].
    rewrite Hj. pose proof (py_find_fits _ _ _ Hj) as Hfit.
    destruct (Z.ltb_spec (Z.of_nat j) 0); [lia|].
    destruct b as [|y b].
    - rewrite py_find_empty in Hj. simpl length. lia.
    - simpl length in *. lia. }
  destruct Hend as [Hend| ->]; [|by rewrite drop_nil, take_nil].
  replace (Z.to_nat _) with 0 by lia. done.
Qed.

(** X2. When the start marker occurs, first at [i], and the end marker
    does not occur, the isolated section runs from [i] to the end of the
    text without its last character. *)
Theorem isolate_section_end_absent text a b i :
  py_find text a = Z.of_nat i ->
  py_find text b = (-1)%Z ->
  isolate_section text a b = take (length text - 1 - i) (drop i text) /\
  (i < length text ->
   drop i text = isolate_section text a b ++ drop (length text - 1) text /\
   length (drop (length text - 1) text) = 1).
Proof.
  intros Ha Hb. pose proof (py_find_fits _ _ _ Ha) as Hfit.
  assert (Hslice : isolate_section text a b =
                   take (length text - 1 - i) (drop i text)).
  { unfold isolate_section, py_slice, adjust_index. rewrite Ha, Hb.
    destruct (Z.ltb_spec (Z.of_nat i) 0); [lia|].
    change (-1 <? 0)%Z with true. cbv iota.
    rewrite Z.min_l by lia. rewrite Nat2Z.id. f_equal. lia. }
  split; [done|]. intros Hi. rewrite Hslice. split.
  - rewrite <- (take_drop (length text - 1 - i) (drop i text)) at 1.
    rewrite drop_drop. do 2 f_equal. lia.
  - rewrite length_drop. lia.
Qed.

Lemma isolate_section_end_not_after text a b i j :
  py_find text a = Z.of_nat i ->
  py_find text b = Z.of_nat j ->
  j <= i ->
  isolate_section text a b = [].
Proof.
  intros Ha Hb Hji. unfold isolate_section, py_slice. rewrite Ha, Hb.
  pose proof (py_find_fits _ _ _ Ha). pose proof (py_find_fits _ _ _ Hb).
  unfold adjust_index.
  destruct (Z.ltb_spec (Z.of_nat i) 0); [lia|].
  destruct (Z.ltb_spec (Z.of_nat j) 0); [lia|].
  replace (Z.to_nat _) with 0 by lia. done.
Qed.

Lemma count_items_empty_section name :
  count_items (list_field_pattern name) [] = 0.
Proof.
  apply count_items_no_match. simpl. rewrite match_at_list_field_key; [done|].
  by destruct (s2l name).
Qed.

(** X1. When the start marker does not occur in the text, or the first
    occurrence of the end marker is not after the first occurrence of the
    start marker (even if the end marker occurs again later), the
    isolated section is empty, and every list field counts 0 items in
    it. *)
Theorem isolate_section_empty text a b :
  py_find text a = (-1)%Z \/
  (exists i j, py_find text a = Z.of_nat i /\ py_find text b = Z.of_nat j /\ j <= i) ->
  isolate_section text a b = [] /\
  forall name, count_items (list_field_pattern name) (isolate_section text a b) = 0.
Proof.
  intros Hmarkers.
  assert (Hempty : isolate_section text a b = []).
  { destruct Hmarkers as [Habsent|(i & j & Hi & Hj & Hji)].
    - by apply isolate_section_no_start.
    - by eapply isolate_section_end_not_after. }
  split; [done|]. intros name. rewrite Hempty. apply count_items_empty_section.
Qed.

(** *** The block of the Sun, the test count and the prompt lines *)

Lemma report_before_witness_length content :
  length (report_before_witness content) = 25.
Proof.
  unfold report_before_witness. by rewrite !length_app, length_map.
Qed.

Lemma run_before_witness_lookup fs content i :
  fs "src/wisdom_data.rs"%string = Read content ->
  i < 25 ->
  (run fs).1 !! i = report_before_witness content !! i.
Proof.
  intros Hprimary Hi. rewrite (run_primary_read _ _ Hprimary).
  pose proof (report_before_witness_length content) as Hlen.
  destruct (fs "src/witness.rs"%string) as [wc|e];
    [|destruct (is_FileNotFoundError e)]; cbn [fst];
    try (rewrite lookup_app_l by (rewrite Hlen; lia)); done.
Qed.

Lemma run_witness_lookup fs content wc i :
  fs "src/wisdom_data.rs"%string = Read content ->
  fs "src/witness.rs"%string = Read wc ->
  (run fs).1 !! (26 + i) = witness_detail wc !! i \/ 4 <= i.
Proof.
  intros Hprimary Hwitness. destruct (decide (i < 4)) as [Hi|]; [left|right; lia].
  rewrite (run_primary_read _ _ Hprimary), Hwitness. cbn [fst].
  pose proof (report_before_witness_length content) as Hlen.
  rewrite lookup_app_r by (rewrite Hlen; lia). rewrite Hlen.
  do 4 (destruct i as [|i]; [reflexivity|]). lia.
Qed.

Lemma report_sun_empty_section content :
  isolate_section content sun_marker moon_marker = [] ->
  report_sun content =
  [[]; separator; s2l "DATA COMPLETENESS CHECK"; separator;
   s2l "Sun Planet Validation:";
   s2l "  Themes:        0 items";
   s2l "  Life Areas:    0 items";
   s2l "  Challenges:    0 items";
   s2l "  Opportunities: 0 items";
   []].
Proof.
  unfold report_sun, sun_marker, moon_marker. intros ->. reflexivity.
Qed.

(** X3. When the primary artifact does not hold the marker of the Sun
    record, or holds the marker of the Moon record first, the block of the
    Sun reports 0 items for each of the four list fields, whatever the
    records contain and whatever happens to the witness module later. *)
Theorem sun_block_reports_zero fs content :
  fs "src/wisdom_data.rs"%string = Read content ->
  py_contains sun_marker content = false \/
  (exists i j, py_find content sun_marker = Z.of_nat i /\
               py_find content moon_marker = Z.of_nat j /\ j <= i) ->
  (run fs).1 !! 20 = Some (s2l "  Themes:        0 items") /\
  (run fs).1 !! 21 = Some (s2l "  Life Areas:    0 items") /\
  (run fs).1 !! 22 = Some (s2l "  Challenges:    0 items") /\
  (run fs).1 !! 23 = Some (s2l "  Opportunities: 0 items").
Proof.
  intros Hprimary Hmarkers.
  assert (Hempty : isolate_section content sun_marker moon_marker = []).
  { destruct Hmarkers as [Habsent%py_contains_find|(i & j & Hi & Hj & Hji)].
    - by apply isolate_section_no_start.
    - by eapply isolate_section_end_not_after. }
  rewrite !(run_before_witness_lookup _ _ _ Hprimary) by lia.
  unfold report_before_witness. rewrite (report_sun_empty_section _ Hempty).
  done.
Qed.

(** *** What the lines about the witness module say *)

(** For a literal that cannot overlap itself, [findall] finds every
    occurrence. *)
Lemma finditer_go_literal l fuel s :
  l <> [] ->
  (forall rest, count_sub l (l ++ rest) = S (count_sub l rest)) ->
  length s < fuel ->
  length (finditer_go fuel (RLit l) s) = count_sub l s.
Proof.
  intros Hl Hself. revert s.
  induction fuel as [|fuel IH]; intros s Hfuel; [lia|].
  cbn [finditer_go].
  pose proof (search_lit l s) as Hsearch.
  destruct (search (RLit l) s) as [[m rest]|]; [|done].
  destruct Hsearch as (Hm & Hlen & Hcount).
  rewrite Hm. destruct l as [|c l]; [done|]. cbn [length].
  rewrite IH, Hcount, Hself; [done|].
  rewrite length_app in Hlen. simpl in Hlen. lia.
Qed.

Lemma findall0_test_marker s :
  length (findall0 test_pattern s) = count_sub test_marker s.
Proof.
  unfold findall0, finditer, test_pattern. fold test_marker.
  rewrite length_map. apply finditer_go_literal; [done| |lia].
  intros rest. reflexivity.
Qed.

(** X4. The number that the report gives as unit tests found is the
    number of positions of the witness module at which the text of a test
    attribute occurs, wherever that is. *)
Theorem tests_found_counts_occurrences fs content witness_content :
  fs "src/wisdom_data.rs"%string = Read content ->
  fs "src/witness.rs"%string = Read witness_content ->
  length (findall0 test_pattern witness_content) =
    count_sub test_marker witness_content /\
  (run fs).1 !! 26 =
    Some (check_mark ++ s2l " Unit tests found: " ++
          py_str_nat (count_sub test_marker witness_content)).
Proof.
  intros Hprimary Hwitness. split; [apply findall0_test_marker|].
  destruct (run_witness_lookup _ _ _ 0 Hprimary Hwitness) as [Hline|]; [|lia].
  change (26 + 0) with 26 in Hline. rewrite Hline.
  unfold witness_detail, tests_found_line. cbn [lookup list_lookup].
  by rewrite findall0_test_marker.
Qed.

(** [sub in s] holds exactly when [sub] occurs in [s]. *)
Lemma py_contains_occurs sub s :
  py_contains sub s = true <-> occurs_in sub s.
Proof.
  split.
  - intros Hin. unfold py_contains in Hin. apply Z.leb_le in Hin.
    destruct (py_find_cases s sub) as [Hnone|[i Hi]]; [lia|].
    apply py_find_found in Hi as (_ & Hat & _).
    apply startswith_true in Hat as [post Hpost].
    exists (take i s), post. by rewrite <- Hpost, take_drop.
  - intros (pre & post & ->).
    destruct (py_contains sub (pre ++ sub ++ post)) eqn:Hin; [done|].
    pose proof (py_contains_false _ _ Hin (length pre)) as Hat.
    by rewrite drop_app_length, startswith_app in Hat.
Qed.

(** X5. Each of the three prompt lines of the report carries the check
    mark exactly when the name of its function occurs somewhere in the
    witness module, and the cross otherwise. *)
Theorem prompt_lines_follow_occurrence fs content witness_content :
  fs "src/wisdom_data.rs"%string = Read content ->
  fs "src/witness.rs"%string = Read witness_content ->
  exists beginner intermediate advanced : bool,
    (run fs).1 !! 27 =
      Some ((if beginner then check_mark else ballot_x) ++
            s2l " Beginner prompt function") /\
    (run fs).1 !! 28 =
      Some ((if intermediate then check_mark else ballot_x) ++
            s2l " Intermediate prompt function") /\
    (run fs).1 !! 29 =
      Some ((if advanced then check_mark else ballot_x) ++
            s2l " Advanced prompt function") /\
    (beginner = true <->
     occurs_in (s2l "generate_beginner_prompt") witness_content) /\
    (intermediate = true <->
     occurs_in (s2l "generate_intermediate_prompt") witness_content) /\
    (advanced = true <->
     occurs_in (s2l "generate_advanced_prompt") witness_content).
Proof.
  intros Hprimary Hwitness.
  exists (py_contains (s2l "generate_beginner_prompt") witness_content),
         (py_contains (s2l "generate_intermediate_prompt") witness_content),
         (py_contains (s2l "generate_advanced_prompt") witness_content).
  destruct (run_witness_lookup _ _ _ 1 Hprimary Hwitness) as [H1|]; [|lia].
  destruct (run_witness_lookup _ _ _ 2 Hprimary Hwitness) as [H2|]; [|lia].
  destruct (run_witness_lookup _ _ _ 3 Hprimary Hwitness) as [H3|]; [|lia].
  change (26 + 1) with 27 in H1. change (26 + 2) with 28 in H2.
  change (26 + 3) with 29 in H3.
  rewrite H1, H2, H3. split_and!; try reflexivity; apply py_contains_occurs.
Qed.

(** *** What [split] keeps and what it drops *)

Lemma no_space_app a b : no_space (a ++ b) = no_space a && no_space b.
Proof. apply forallb_app. Qed.

Lemma no_space_rev l : no_space (rev l) = no_space l.
Proof.
  induction l as [|c l IH]; [done|]. simpl rev.
  rewrite no_space_app, IH. simpl. by rewrite andb_true_r, andb_comm.
Qed.

Lemma split_go_words cur s :
  no_space cur = true -> Forall is_word (split_go cur s).
Proof.
  revert cur. induction s as [|c s IH]; intros cur Hcur; simpl.
  - destruct cur as [|x cur]; [constructor|].
    repeat constructor; [|by rewrite no_space_rev].
    intros Hnil%(f_equal length). by rewrite length_rev in Hnil.
  - destruct (py_isspace c) eqn:Hc.
    + destruct cur as [|x cur]; [by apply IH|].
      constructor; [|by apply IH]. split; [|by rewrite no_space_rev].
      intros Hnil%(f_equal length). by rewrite length_rev in Hnil.
    + apply IH. simpl. by rewrite Hc.
Qed.

Lemma split_go_concat cur s :
  concat (split_go cur s) =
  rev cur ++ List.filter (fun c => negb (py_isspace c)) s.
Proof.
  revert cur. induction s as [|c s IH]; intros cur; simpl.
  - destruct cur; simpl; by rewrite ?app_nil_r.
  - destruct (py_isspace c); simpl.
    + destruct cur; simpl; by rewrite IH.
    + rewrite IH. simpl. by rewrite <- app_assoc.
Qed.

Lemma split_go_bound cur s :
  2 * length (split_go cur s) <=
  length s + match cur with [] => 1 | _ => 2 end.
Proof.
  revert cur. induction s as [|c s IH]; intros cur; simpl.
  - destruct cur; simpl; lia.
  - destruct (py_isspace c).
    + destruct cur; [specialize (IH [])|specialize (IH [])]; simpl in *; lia.
    + specialize (IH (c :: cur)). destruct cur; simpl in *; lia.
Qed.

(** X6. The words that [split] returns are non-empty and free of white
    space; put together they are the text without its white space; and a
    text of [n] characters has at most [(n + 1) / 2] words. *)
Theorem py_split_words desc :
  Forall is_word (py_split desc) /\
  concat (py_split desc) = List.filter (fun c => negb (py_isspace c)) desc /\
  2 * length (py_split desc) <= length desc + 1.
Proof.
  unfold py_split. split_and!.
  - by apply split_go_words.
  - by rewrite split_go_concat.
  - apply (split_go_bound []).
Qed.

(** X7. A description that passes has at least 101 characters, so any
    shorter description is reported as FAIL whatever it says; and a
    description of white space only has no word at all. *)
Theorem short_description_invalid content planet data :
  (collect (extract_planet_records content)).2 !! planet = Some data ->
  (valid data = true -> 101 <= length (description data)) /\
  (length (description data) < 101 ->
   found_line planet data = fail_line planet (word_count data)) /\
  (all_space (description data) = true -> word_count data = 0).
Proof.
  intros (desc & _ & ->)%collect_lookup_Some. simpl.
  pose proof (split_go_bound [] desc) as Hbound. fold (py_split desc) in Hbound.
  simpl in Hbound.
  assert (Hvalid : (50 <? length (py_split desc)) = true -> 101 <= length desc).
  { intros Hv%Nat.ltb_lt. lia. }
  split_and!.
  - done.
  - intros Hshort. rewrite found_line_cases. simpl.
    destruct (50 <? length (py_split desc)); [|done].
    specialize (Hvalid eq_refl). lia.
  - intros Hspace. unfold py_split.
    rewrite <- (app_nil_r desc). by rewrite split_go_lead.
Qed.

(** *** Records of identifiers that are not expected *)

Lemma collect_lookup_other before p d after q :
  q <> p ->
  (collect (before ++ (p, d) :: after)).2 !! q = (collect (before ++ after)).2 !! q.
Proof.
  intros Hq. induction after as [|[p' d'] after IH] using rev_ind.
  - rewrite collect_descriptions_snoc, app_nil_r. by apply lookup_insert_ne.
  - replace (before ++ (p, d) :: after ++ [(p', d')])
      with ((before ++ (p, d) :: after) ++ [(p', d')])
      by (by rewrite <- app_assoc).
    replace (before ++ after ++ [(p', d')])
      with ((before ++ after) ++ [(p', d')]) by (by rewrite app_assoc).
    rewrite !collect_descriptions_snoc, !lookup_insert. by rewrite IH.
Qed.

Lemma expected_found_length (matches : list (str * str)) :
  (forall planet, planet ∈ expected_planets -> planet ∈ map fst matches) ->
  9 <= length matches.
Proof.
  intros Hall. rewrite <- (length_map fst), <- expected_planets_length.
  apply submseteq_length, NoDup_submseteq; [apply expected_planets_NoDup | done].
Qed.

(** X8. A record whose identifier is not one of the nine expected
    changes none of the nine planet lines but adds one to the total; so
    beside records of all nine expected planets it makes the completeness
    check fail. *)
Theorem unexpected_record_counted before planet desc after :
  planet ∉ expected_planets ->
  map (planet_line (collect (before ++ (planet, desc) :: after)).2) expected_planets =
  map (planet_line (collect (before ++ after)).2) expected_planets /\
  (collect (before ++ (planet, desc) :: after)).1 =
    (collect before).1 ++ planet :: (collect after).1 /\
  ((forall expected, expected ∈ expected_planets ->
      expected ∈ map fst (before ++ after)) ->
   (check_completeness (before ++ (planet, desc) :: after)).2 = false).
Proof.
  intros Hnot. split_and!.
  - apply map_ext_in. intros expected Hin%list_elem_of_In.
    unfold planet_line. rewrite collect_lookup_other; [done|].
    intros ->. done.
  - by rewrite !collect_planets_found, map_app.
  - intros Hall%expected_found_length.
    apply check_completeness_fails_iff. right; right.
    rewrite length_app in *. simpl. lia.
Qed.

(** *** When the report is empty, and which verdict it gives *)

(** X9. The report is empty exactly when the primary artifact cannot be
    read; the run then ends in the error of that read, without looking at
    the witness module. *)
Theorem report_empty_iff_primary_unreadable fs :
  ((run fs).1 = [] <-> exists e, fs "src/wisdom_data.rs"%string = Fails e) /\
  (forall e, fs "src/wisdom_data.rs"%string = Fails e -> run fs = ([], Raised e)).
Proof.
  split; [|apply run_primary_fails]. split.
  - destruct (fs "src/wisdom_data.rs"%string) as [content|e] eqn:Hprimary;
      [|by exists e].
    intros Hempty%(f_equal length). exfalso. revert Hempty.
    rewrite (run_primary_read _ _ Hprimary).
    pose proof (report_before_witness_length content) as Hlen.
    destruct (fs "src/witness.rs"%string) as [wc|e];
      [|destruct (is_FileNotFoundError e)]; cbn [fst];
      rewrite ?length_app, Hlen; simpl; lia.
  - intros [e He]. by rewrite (run_primary_fails _ _ He).
Qed.

Lemma looks_failed_not_in lines :
  Forall (fun line => looks_failed line = false) lines -> failed_line ∉ lines.
Proof.
  intros Hall Hin. rewrite Forall_forall in Hall.
  specialize (Hall _ Hin). discriminate Hall.
Qed.

Lemma planet_line_not_failed descriptions planet :
  planet ∈ expected_planets -> looks_failed (planet_line descriptions planet) = false.
Proof.
  revert planet. apply expected_planets_cases;
    unfold planet_line; (destruct (descriptions !! _) as [data|]; [|reflexivity]);
    unfold found_line; by destruct (valid data).
Qed.

Lemma report_before_witness_not_failed content :
  Forall (fun line => looks_failed line = false) (report_before_witness content).
Proof.
  unfold report_before_witness. rewrite !Forall_app. split_and!.
  - unfold report_head. by repeat constructor.
  - apply Forall_forall. intros line (planet & -> & Hin)%list_elem_of_fmap.
    by apply planet_line_not_failed.
  - unfold report_sun. by repeat constructor.
Qed.

Lemma witness_detail_not_failed wc :
  Forall (fun line => looks_failed line = false) (witness_exists_line :: witness_detail wc).
Proof.
  unfold witness_detail, prompt_line.
  repeat constructor; try reflexivity;
    match goal with |- context [if ?b then _ else _] => by destruct b end.
Qed.

(** X10. The report says ALL VALIDATION CHECKS PASSED exactly when both
    artifacts can be read, extraction yields the nine expected identifiers
    once each and nothing else, and every description has more than 50
    words. *)
Theorem passed_iff_complete fs :
  passed_line ∈ (run fs).1 <->
  exists content witness_content,
    fs "src/wisdom_data.rs"%string = Read content /\
    fs "src/witness.rs"%string = Read witness_content /\
    map fst (extract_planet_records content) ≡ₚ expected_planets /\
    forall planet desc,
      (planet, desc) ∈ extract_planet_records content ->
      50 < length (py_split desc).
Proof.
  split.
  - destruct (fs "src/wisdom_data.rs"%string) as [content|e] eqn:Hprimary.
    2: { rewrite (run_primary_fails _ _ Hprimary). by intros ?%elem_of_nil. }
    rewrite (run_primary_read _ _ Hprimary).
    pose proof (report_before_witness_not_passed content) as Hbefore.
    destruct (fs "src/witness.rs"%string) as [wc|e] eqn:Hwitness.
    + destruct (check_completeness (extract_planet_records content)).2 eqn:Hok.
      * intros _. exists content, wc. split_and!; [done..| |].
        -- symmetry. apply nine_records_permutation.
           ++ intros planet Hin.
              destruct (decide (planet ∈ map fst (extract_planet_records content)))
                as [|Hnot]; [done|exfalso].
              pose proof (check_completeness_missing _ _ Hin Hnot). congruence.
           ++ destruct (decide (length (extract_planet_records content) = 9))
                as [->|Hlen]; [done|exfalso].
              assert ((check_completeness (extract_planet_records content)).2 = false)
                by (apply check_completeness_fails_iff; by right; right).
              congruence.
        -- intros planet desc Hin.
           destruct (decide (50 < length (py_split desc))) as [|Hshort]; [done|exfalso].
           assert ((check_completeness (extract_planet_records content)).2 = false)
             by (apply check_completeness_fails_iff; right; left; eauto).
           congruence.
      * intros Hin. exfalso. revert Hin. cbn [fst]. apply looks_passed_not_in.
        rewrite Forall_app. split; [done|].
        rewrite app_comm_cons, Forall_app. split; [apply witness_detail_not_passed|].
        by repeat constructor.
    + intros Hin. exfalso. revert Hin.
      destruct (is_FileNotFoundError e); cbn [fst]; apply looks_passed_not_in;
        [|done].
      rewrite Forall_app. split; [done|]. by repeat constructor.
  - intros (content & wc & Hprimary & Hwitness & Hperm & Hwords).
    rewrite (run_primary_read _ _ Hprimary), Hwitness.
    rewrite (check_completeness_passes _ Hperm Hwords). cbn [fst].
    rewrite elem_of_app. right. rewrite app_comm_cons, elem_of_app. right.
    unfold report_tail, verdict_line.
    apply elem_of_cons. right. apply elem_of_cons. right. apply elem_of_cons. by left.
Qed.

(** *** What the matcher has read when it succeeds *)

Lemma take_app_rest {A} (a b : list A) :
  take (length (a ++ b) - length b) (a ++ b) = a.
Proof. rewrite length_app, Nat.add_sub. apply take_app_length. Qed.

Lemma star_greedy_inv {R} c s (k : str -> option R) res :
  star_greedy c s k = Some res ->
  exists run s', s = run ++ s' /\ forallb (cls c) run = true /\ k s' = Some res.
Proof.
  induction s as [|x s IH]; simpl; intros Hres; [by exists [], []|].
  destruct (cls c x) eqn:Hx; [|by exists [], (x :: s)].
  destruct (star_greedy c s k) as [r|]; [|by exists [], (x :: s)].
  destruct (IH Hres) as (run & s' & -> & Hrun & Hk).
  exists (x :: run), s'. simpl. by rewrite Hx.
Qed.

Lemma star_lazy_inv {R} c s (k : str -> option R) res :
  star_lazy c s k = Some res ->
  exists skipped s',
    s = skipped ++ s' /\ forallb (cls c) skipped = true /\ k s' = Some res.
Proof.
  induction s as [|x s IH]; simpl; intros Hres.
  - destruct (k []) eqn:Hk; [|done]. exists [], []. split_and!; [done..|congruence].
  - destruct (k (x :: s)) eqn:Hk;
      [exists [], (x :: s); split_and!; [done..|congruence]|].
    destruct (cls c x) eqn:Hx; [|done].
    destruct (IH Hres) as (skipped & s' & -> & Hskipped & Hk').
    exists (x :: skipped), s'. simpl. by rewrite Hx.
Qed.

Lemma rmatch_lit_inv {R} l s cp (k : str -> caps -> option R) res :
  rmatch (RLit l) s cp k = Some res ->
  exists s', s = l ++ s' /\ k s' cp = Some res.
Proof.
  cbn [rmatch]. destruct (startswith l s) eqn:Hl; [|done].
  intros Hk. exists (drop (length l) s). split; [by apply startswith_drop|done].
Qed.

Lemma rmatch_plus_inv {R} c s cp (k : str -> caps -> option R) res :
  rmatch (RPlus c) s cp k = Some res ->
  exists run s',
    s = run ++ s' /\ run <> [] /\ forallb (cls c) run = true /\ k s' cp = Some res.
Proof.
  cbn [rmatch]. destruct s as [|x s]; [done|].
  destruct (cls c x) eqn:Hx; [|done].
  intros (run & s' & -> & Hrun & Hk)%star_greedy_inv.
  exists (x :: run), s'. simpl. by rewrite Hx.
Qed.

Lemma rmatch_lazy_inv {R} c s cp (k : str -> caps -> option R) res :
  rmatch (RStarLazy c) s cp k = Some res ->
  exists skipped s', s = skipped ++ s' /\ k s' cp = Some res.
Proof.
  cbn [rmatch]. intros (skipped & s' & -> & _ & Hk)%star_lazy_inv. eauto.
Qed.

Lemma rmatch_group_plus_inv {R} n c s cp (k : str -> caps -> option R) res :
  rmatch (RGroup n (RPlus c)) s cp k = Some res ->
  exists run s',
    s = run ++ s' /\ run <> [] /\ forallb (cls c) run = true /\
    k s' ((n, run) :: cp) = Some res.
Proof.
  intros Hm.
  change (rmatch (RPlus c) s cp
            (fun s' cp' => k s' ((n, take (length s - length s') s) :: cp'))
          = Some res) in Hm.
  apply rmatch_plus_inv in Hm as (run & s' & -> & Hne & Hrun & Hk).
  exists run, s'. by rewrite take_app_rest in Hk.
Qed.

Lemma rmatch_seq_eq {R} r1 r2 s cp (k : str -> caps -> option R) :
  rmatch (r1 ;;; r2) s cp k = rmatch r1 s cp (fun s' cp' => rmatch r2 s' cp' k).
Proof. reflexivity. Qed.

(** A match of the planet pattern has read the text of a record. *)
Lemma match_at_planet_inv s m rest :
  match_at planet_pattern s = Some (m, rest) ->
  exists e,
    s = record_text e ++ rest /\ shaped e /\
    m_groups m = [(2, rs_desc e); (1, rs_name e)].
Proof.
  unfold match_at, planet_pattern. intros Hm.
  rewrite rmatch_seq_eq in Hm. apply rmatch_lit_inv in Hm as (s1 & -> & Hm).
  rewrite rmatch_seq_eq in Hm.
  apply rmatch_group_plus_inv in Hm as (name & s2 & -> & Hname & Hword & Hm).
  rewrite rmatch_seq_eq in Hm. apply rmatch_lit_inv in Hm as (s3 & -> & Hm).
  rewrite rmatch_seq_eq in Hm.
  apply rmatch_plus_inv in Hm as (ws1 & s4 & -> & Hne1 & Hws1 & Hm).
  rewrite rmatch_seq_eq in Hm. apply rmatch_lit_inv in Hm as (s5 & -> & Hm).
  rewrite rmatch_seq_eq in Hm.
  apply rmatch_plus_inv in Hm as (ws2 & s6 & -> & Hne2 & Hws2 & Hm).
  rewrite rmatch_seq_eq in Hm. apply rmatch_lit_inv in Hm as (s7 & -> & Hm).
  rewrite rmatch_seq_eq in Hm.
  apply rmatch_lazy_inv in Hm as (mid & s8 & -> & Hm).
  rewrite rmatch_seq_eq in Hm. apply rmatch_lit_inv in Hm as (s9 & -> & Hm).
  rewrite rmatch_seq_eq in Hm.
  apply rmatch_plus_inv in Hm as (ws3 & s10 & -> & Hne3 & Hws3 & Hm).
  rewrite rmatch_seq_eq in Hm. apply rmatch_lit_inv in Hm as (s11 & -> & Hm).
  rewrite rmatch_seq_eq in Hm.
  apply rmatch_group_plus_inv in Hm as (desc & s12 & -> & Hdesc & Hquote & Hm).
  apply rmatch_lit_inv in Hm as (s13 & -> & Hm).
  injection Hm as <- <-.
  exists (MkShape name ws1 ws2 mid ws3 desc). split_and!.
  - unfold record_text. cbn [rs_name rs_ws1 rs_ws2 rs_mid rs_ws3 rs_desc].
    by rewrite <- !app_assoc.
  - by repeat split.
  - reflexivity.
Qed.

Lemma search_inv r s m rest :
  search r s = Some (m, rest) ->
  exists pre s0, s = pre ++ s0 /\ match_at r s0 = Some (m, rest).
Proof.
  induction s as [|x s IH]; cbn [search].
  - destruct (match_at r []) as [m'|] eqn:Hm; [|done].
    intros [= ->]. by exists [], [].
  - destruct (match_at r (x :: s)) as [m'|] eqn:Hm.
    + intros [= ->]. by exists [], (x :: s).
    + intros (pre & s0 & -> & Hm0)%IH. by exists (x :: pre), s0.
Qed.

(** Every match that [finditer] returns is a match at some position of
    the input. *)
Lemma finditer_go_elem fuel r s m :
  m ∈ finditer_go fuel r s ->
  exists pre s0 rest, s = pre ++ s0 /\ match_at r s0 = Some (m, rest).
Proof.
  revert s. induction fuel as [|fuel IH]; intros s; cbn [finditer_go].
  - by intros ?%elem_of_nil.
  - destruct (search r s) as [[m0 rest0]|] eqn:Hsearch;
      [|by intros ?%elem_of_nil].
    apply search_inv in Hsearch as (pre & s0 & -> & Hm0).
    pose proof (match_at_suffix _ _ _ _ Hm0) as [[mid ->] _].
    intros [->|Hin]%elem_of_cons; [by exists pre, (mid ++ rest0), rest0|].
    assert (Hlater : exists pre' s0' rest',
               rest0 = pre' ++ s0' /\ match_at r s0' = Some (m, rest')).
    { destruct (m_text m0); [destruct rest0 as [|y rest0]|].
      - by apply elem_of_nil in Hin.
      - apply IH in Hin as (pre' & s0' & rest' & -> & Hm).
        by exists (y :: pre'), s0', rest'.
      - by apply IH in Hin. }
    destruct Hlater as (pre' & s0' & rest' & -> & Hm).
    exists (pre ++ mid ++ pre'), s0', rest'. by rewrite <- !app_assoc.
Qed.

(** X12. Every record that extraction returns was read from the primary
    artifact: the artifact holds, in this order, the marker, the name of
    the record (a non-empty run of word characters), a comma, white
    space, the type name, white space, a brace, any text, the description
    key, white space, and the description of the record between double
    quotes, which is non-empty and holds no double quote. *)
Theorem extraction_sound content planet desc :
  (planet, desc) ∈ extract_planet_records content ->
  exists pre e post,
    content = pre ++ record_text e ++ post /\
    shaped e /\ rs_name e = planet /\ rs_desc e = desc.
Proof.
  unfold extract_planet_records, findall2.
  intros (m & [= -> ->] & Hin)%list_elem_of_fmap.
  apply finditer_go_elem in Hin as (pre & s0 & rest & -> & Hm).
  apply match_at_planet_inv in Hm as (e & -> & Hshaped & Hgroups).
  exists pre, e, rest. rewrite Hgroups. by split_and!.
Qed.

(** *** Extraction from a well-formed data file *)

Lemma startswith_app_long p s t :
  length p <= length s -> startswith p (s ++ t) = startswith p s.
Proof.
  revert s. induction p as [|a p IH]; intros s Hlen; [done|].
  destruct s as [|b s]; simpl in *; [lia|]. rewrite IH by lia. done.
Qed.

Lemma clean_before_spec key junk rest i :
  clean_before key junk -> i < length junk ->
  startswith key (drop i (junk ++ key ++ rest)) = false.
Proof.
  intros (_ & _ & Hbefore)%py_find_found Hi.
  specialize (Hbefore i Hi).
  rewrite app_assoc, drop_app_le by (rewrite length_app; lia).
  rewrite startswith_app_long; [done|].
  rewrite length_drop, length_app. lia.
Qed.

Lemma rmatch_lit_app {R} l s cp (k : str -> caps -> option R) :
  rmatch (RLit l) (l ++ s) cp k = k s cp.
Proof. cbn [rmatch]. by rewrite startswith_app, drop_app_length. Qed.

Lemma rmatch_lit_fails {R} l r s cp (k : str -> caps -> option R) :
  startswith l s = false -> rmatch (RLit l ;;; r) s cp k = None.
Proof. intros Hl. cbn [rmatch]. by rewrite Hl. Qed.

Lemma rmatch_plus_run {R} c run rest cp (k : str -> caps -> option R) res :
  run <> [] -> forallb (cls c) run = true ->
  match rest with x :: _ => cls c x = false | [] => True end ->
  k rest cp = Some res ->
  rmatch (RPlus c) (run ++ rest) cp k = Some res.
Proof.
  intros Hne Hrun Hstop Hk. destruct run as [|x run]; [done|].
  simpl in Hrun. apply andb_true_iff in Hrun as [Hx Hrun].
  change ((x :: run) ++ rest) with (x :: (run ++ rest)).
  cbn [rmatch]. rewrite Hx. by apply star_greedy_run.
Qed.

Lemma rmatch_group_plus_run {R} n c run rest cp (k : str -> caps -> option R) res :
  run <> [] -> forallb (cls c) run = true ->
  match rest with x :: _ => cls c x = false | [] => True end ->
  k rest ((n, run) :: cp) = Some res ->
  rmatch (RGroup n (RPlus c)) (run ++ rest) cp k = Some res.
Proof.
  intros Hne Hrun Hstop Hk.
  change (rmatch (RPlus c) (run ++ rest) cp
            (fun s' cp' =>
               k s' ((n, take (length (run ++ rest) - length s') (run ++ rest)) :: cp'))
          = Some res).
  apply rmatch_plus_run; [done..|]. by rewrite take_app_rest.
Qed.

Lemma rmatch_lazy_skip {R} c skipped rest cp (k : str -> caps -> option R) res :
  forallb (cls c) skipped = true ->
  (forall i, i < length skipped -> k (drop i skipped ++ rest) cp = None) ->
  k rest cp = Some res ->
  rmatch (RStarLazy c) (skipped ++ rest) cp k = Some res.
Proof.
  intros Hskipped Hfail Hk. cbn [rmatch].
  rewrite star_lazy_skip by done. by apply star_lazy_now.
Qed.

Lemma forallb_any s : forallb (cls CAny) s = true.
Proof. by induction s. Qed.

(** The planet pattern at the start of the text of a record reads the
    record and nothing more. *)
Lemma match_at_record e tail :
  shaped e -> clean_before (s2l "description:") (rs_mid e) ->
  exists text,
    match_at planet_pattern (record_text e ++ tail) =
    Some (MkMatch text [(2, rs_desc e); (1, rs_name e)], tail).
Proof.
  destruct e as [name ws1 ws2 mid ws3 desc]. unfold shaped.
  cbn [rs_name rs_ws1 rs_ws2 rs_mid rs_ws3 rs_desc].
  intros (Hname & Hword & Hne1 & Hws1 & Hne2 & Hws2 & Hne3 & Hws3 & Hdesc & Hquote)
         Hmid.
  eexists. unfold match_at, planet_pattern, record_text.
  cbn [rs_name rs_ws1 rs_ws2 rs_mid rs_ws3 rs_desc].
  rewrite <- !app_assoc.
  rewrite rmatch_seq_eq, rmatch_lit_app.
  rewrite rmatch_seq_eq. apply rmatch_group_plus_run; [done|done|reflexivity|].
  rewrite rmatch_seq_eq, rmatch_lit_app.
  rewrite rmatch_seq_eq. apply rmatch_plus_run; [done|done|reflexivity|].
  rewrite rmatch_seq_eq, rmatch_lit_app.
  rewrite rmatch_seq_eq. apply rmatch_plus_run; [done|done|reflexivity|].
  rewrite rmatch_seq_eq, rmatch_lit_app.
  rewrite rmatch_seq_eq. apply rmatch_lazy_skip; [apply forallb_any| |].
  { intros i Hi. apply rmatch_lit_fails.
    rewrite <- drop_app_le by lia. by apply clean_before_spec. }
  rewrite rmatch_seq_eq, rmatch_lit_app.
  rewrite rmatch_seq_eq. apply rmatch_plus_run; [done|done|reflexivity|].
  rewrite rmatch_seq_eq, rmatch_lit_app.
  rewrite rmatch_seq_eq. apply rmatch_group_plus_run; [done|done|reflexivity|].
  rewrite rmatch_lit_app. reflexivity.
Qed.

Lemma match_at_planet_key s :
  startswith (s2l "VedicPlanet::") s = false ->
  match_at planet_pattern s = None.
Proof. intros Hkey. unfold match_at, planet_pattern. by apply rmatch_lit_fails. Qed.

(** After a non-empty match, [finditer] goes on with the rest. *)
Lemma finditer_cons r s m rest :
  search r s = Some (m, rest) -> m_text m <> [] ->
  finditer r s = m :: finditer r rest.
Proof.
  intros Hsearch Htext. unfold finditer at 1. cbn [finditer_go].
  rewrite Hsearch. f_equal.
  apply search_shrinks in Hsearch as [_ Hlt]. specialize (Hlt Htext).
  destruct (m_text m); [done|]. by apply finditer_fuel.
Qed.

Lemma finditer_planet_record junk e tail :
  well_formed (junk, e) ->
  exists m,
    finditer planet_pattern (junk ++ record_text e ++ tail) =
      m :: finditer planet_pattern tail /\
    m_groups m = [(2, rs_desc e); (1, rs_name e)].
Proof.
  intros (Hjunk & Hmid & Hshaped); cbn [fst snd] in *.
  destruct (match_at_record e tail Hshaped Hmid) as [text Hmatch].
  exists (MkMatch text [(2, rs_desc e); (1, rs_name e)]). split; [|done].
  apply finditer_cons.
  - rewrite search_skip; [by apply search_here|].
    intros i Hi. apply match_at_planet_key.
    unfold record_text. rewrite <- !app_assoc. by apply clean_before_spec.
  - eapply match_at_literal_first; [|left; exact Hmatch]. done.
Qed.

Lemma findall2_file_text entries trailer :
  Forall well_formed entries ->
  py_contains (s2l "VedicPlanet::") trailer = false ->
  findall2 planet_pattern (file_text entries ++ trailer) =
  map (fun e => (rs_name e.2, rs_desc e.2)) entries.
Proof.
  intros Hentries Htrailer. unfold findall2.
  induction Hentries as [|[junk e] entries Hentry _ IH].
  - simpl. rewrite finditer_search_none; [done|].
    apply search_none. intros i. apply match_at_planet_key.
    by apply py_contains_false.
  - unfold file_text. simpl concat. fold (file_text entries).
    rewrite <- !app_assoc.
    destruct (finditer_planet_record junk e (file_text entries ++ trailer) Hentry)
      as (m & -> & Hgroups).
    simpl map. rewrite Hgroups, IH. reflexivity.
Qed.

(** X13. On a data file made of records of the shape that the planet
    pattern reads, each after text without the marker and each without a
    description key before its own, and with no marker after the last
    record, extraction returns the name and the description of every
    record, in the order of the file, and the report gives their number
    as the found total. *)
Theorem extraction_complete fs entries trailer :
  fs "src/wisdom_data.rs"%string = Read (file_text entries ++ trailer) ->
  Forall well_formed entries ->
  py_contains (s2l "VedicPlanet::") trailer = false ->
  extract_planet_records (file_text entries ++ trailer) =
    map (fun e => (rs_name e.2, rs_desc e.2)) entries /\
  (run fs).1 !! 4 = Some (found_count_line (length entries)).
Proof.
  intros Hprimary Hentries Htrailer.
  assert (Hextract : extract_planet_records (file_text entries ++ trailer) =
                     map (fun e => (rs_name e.2, rs_desc e.2)) entries)
    by (by apply findall2_file_text).
  split; [done|].
  rewrite (run_before_witness_lookup _ _ _ Hprimary) by lia.
  unfold report_before_witness. rewrite Hextract, length_map. reflexivity.
Qed.

(** X14. When the primary artifact is a well-formed data file whose
    records are the nine expected planets, once each, every description
    of more than 50 words, and the witness module can be read, the report
    ends with ALL VALIDATION CHECKS PASSED. *)
Theorem well_formed_file_passes fs entries trailer witness_content :
  fs "src/wisdom_data.rs"%string = Read (file_text entries ++ trailer) ->
  fs "src/witness.rs"%string = Read witness_content ->
  Forall well_formed entries ->
  py_contains (s2l "VedicPlanet::") trailer = false ->
  map (fun e => rs_name e.2) entries ≡ₚ expected_planets ->
  (forall e, e ∈ entries -> 50 < length (py_split (rs_desc e.2))) ->
  exists lines,
    run fs = (lines ++ [passed_line; separator], Value ()) /\
    lines !! 4 = Some (check_mark ++ s2l " Planets Found: 9/9").
Proof.
  intros Hprimary Hwitness Hentries Htrailer Hperm Hwords.
  pose proof (findall2_file_text _ _ Hentries Htrailer) as Hextract.
  fold (extract_planet_records (file_text entries ++ trailer)) in Hextract.
  assert (Hok : (check_completeness
                   (extract_planet_records (file_text entries ++ trailer))).2 = true).
  { apply check_completeness_passes.
    - rewrite Hextract, map_map. exact Hperm.
    - rewrite Hextract. intros planet desc (e & [= -> ->] & Hin)%list_elem_of_fmap.
      by apply Hwords. }
  assert (Hnine : length entries = 9).
  { by rewrite <- (length_map (fun e : str * record_shape => rs_name e.2)), Hperm. }
  rewrite (run_primary_read _ _ Hprimary), Hwitness, Hok.
  exists (report_before_witness (file_text entries ++ trailer) ++
          witness_exists_line :: witness_detail witness_content ++ [[]; separator]).
  split; [by rewrite <- !app_assoc|].
  rewrite lookup_app_l by (rewrite report_before_witness_length; lia).
  unfold report_before_witness. rewrite Hextract, length_map, Hnine. reflexivity.
Qed.

(* ================================================================== *)
(** ** The lines of the report, spelled out *)
(* ================================================================== *)

(** *** The text of the lines *)

Lemma missing_line_text planet :
  missing_line planet =
  10060%N :: 32%N :: (planet ++ replicate (10 - length planet) 32%N) ++
  s2l " - MISSING".
Proof. reflexivity. Qed.

Lemma found_line_text planet desc :
  found_line planet (record_of desc) =
  (if 50 <? length (py_split desc) then 9989%N else 10060%N) :: 32%N ::
  (planet ++ replicate (10 - length planet) 32%N) ++ s2l " - " ++
  fmt_int 3 (length (py_split desc)) ++ s2l " words " ++
  (if 50 <? length (py_split desc) then s2l "(PASS)" else s2l "(FAIL: <50 words)").
Proof.
  unfold found_line, record_of; simpl valid; simpl word_count.
  by destruct (50 <? length (py_split desc)).
Qed.

Lemma passed_line_text : passed_line = 9989%N :: s2l " ALL VALIDATION CHECKS PASSED".
Proof. reflexivity. Qed.

Lemma failed_line_text :
  failed_line = 10060%N :: s2l " VALIDATION FAILED - See errors above".
Proof. reflexivity. Qed.

Lemma separator_text : separator = replicate 70 61%N.
Proof. reflexivity. Qed.

(** *** Where the lines are *)

Lemma run_planet_line fs content k planet :
  fs "src/wisdom_data.rs"%string = Read content ->
  expected_planets !! k = Some planet ->
  (run fs).1 !! (6 + k) =
  Some (planet_line (collect (extract_planet_records content)).2 planet).
Proof.
  intros Hprimary Hk.
  pose proof (lookup_lt_Some _ _ _ Hk) as Hlt.
  rewrite expected_planets_length in Hlt.
  rewrite (run_before_witness_lookup _ _ _ Hprimary) by lia.
  unfold report_before_witness.
  rewrite lookup_app_r by (simpl; lia).
  replace (6 + k - length (report_head (length (extract_planet_records content))))
    with k by (simpl; lia).
  rewrite lookup_app_l by (rewrite length_map, expected_planets_length; lia).
  by rewrite list_lookup_fmap, Hk.
Qed.

Lemma run_last_match_line fs content before planet desc after k :
  fs "src/wisdom_data.rs"%string = Read content ->
  extract_planet_records content = before ++ (planet, desc) :: after ->
  planet ∉ map fst after ->
  expected_planets !! k = Some planet ->
  (run fs).1 !! (6 + k) = Some (found_line planet (record_of desc)).
Proof.
  intros Hprimary Hmatches Hlast Hk.
  rewrite (run_planet_line _ _ _ _ Hprimary Hk). unfold planet_line.
  by rewrite Hmatches, collect_lookup_last.
Qed.

Lemma run_not_passed fs content :
  fs "src/wisdom_data.rs"%string = Read content ->
  (check_completeness (extract_planet_records content)).2 = false ->
  passed_line ∉ (run fs).1.
Proof.
  intros Hprimary Hfail.
  pose proof (report_before_witness_not_passed content) as Hbefore.
  rewrite (run_primary_read _ _ Hprimary), Hfail.
  destruct (fs "src/witness.rs"%string) as [wc|e];
    [|destruct (is_FileNotFoundError e)]; cbn [fst];
    apply looks_passed_not_in; [| |done].
  - rewrite Forall_app. split; [done|].
    rewrite app_comm_cons, Forall_app. split; [apply witness_detail_not_passed|].
    by repeat constructor.
  - rewrite Forall_app. split; [done|]. by repeat constructor.
Qed.

Lemma run_other_error fs content e :
  fs "src/wisdom_data.rs"%string = Read content ->
  fs "src/witness.rs"%string = Fails e ->
  e <> FileNotFoundError ->
  (run fs).2 = Raised e /\ failed_line ∉ (run fs).1.
Proof.
  intros Hprimary Hwitness He.
  rewrite (run_primary_read _ _ Hprimary), Hwitness.
  destruct e; try done; cbn [is_FileNotFoundError fst snd];
    (split; [done|]); apply looks_failed_not_in, report_before_witness_not_failed.
Qed.

(** *** The claims about the lines *)

(** C2, as amended. For every extracted description, the entry that the
    loop builds has its word count equal to the number of
    white-space-separated words of the description, and [valid] true
    exactly when that count exceeds 50. The entry is kept, and reported,
    when the match is the last one of its identifier and the identifier is
    one of the nine expected: the line of that planet then gives the count
    and PASS or FAIL, and for exactly 50 words it is the FAIL line. In
    every case a description of 50 words or fewer keeps the report from
    printing the line of success. *)
Theorem valid_iff_word_count fs content before planet desc after :
  fs "src/wisdom_data.rs"%string = Read content ->
  extract_planet_records content = before ++ (planet, desc) :: after ->
  let n := length (py_split desc) in
  let data := record_of desc in
  word_count data = n /\
  (forall lead toks last,
     all_space lead = true -> Forall is_token toks -> no_space last = true ->
     desc = lead ++ join_tokens toks ++ last ->
     n = length toks + (if last is [] then 0 else 1)) /\
  (valid data = true <-> 50 < n) /\
  (planet ∉ map fst after ->
   (collect (extract_planet_records content)).2 !! planet = Some data) /\
  (forall k,
     expected_planets !! k = Some planet -> planet ∉ map fst after ->
     (run fs).1 !! (6 + k) =
     Some ((if 50 <? n then 9989%N else 10060%N) :: 32%N ::
           (planet ++ replicate (10 - length planet) 32%N) ++ s2l " - " ++
           fmt_int 3 n ++ s2l " words " ++
           (if 50 <? n then s2l "(PASS)" else s2l "(FAIL: <50 words)"))) /\
  (n = 50 ->
   forall k,
     expected_planets !! k = Some planet -> planet ∉ map fst after ->
     (run fs).1 !! (6 + k) =
     Some (10060%N :: 32%N :: (planet ++ replicate (10 - length planet) 32%N) ++
           s2l " -  50 words (FAIL: <50 words)")) /\
  (~ 50 < n ->
   (9989%N :: s2l " ALL VALIDATION CHECKS PASSED") ∉ (run fs).1).
Proof.
  intros Hprimary Hmatches n data. split_and!.
  - reflexivity.
  - intros lead toks last Hlead Htoks Hlast ->. unfold n.
    rewrite py_split_tokens, length_app, length_map by done. by destruct last.
  - apply record_of_valid.
  - intros Hlast. rewrite Hmatches. by apply collect_lookup_last.
  - intros k Hk Hlast.
    rewrite (run_last_match_line _ _ _ _ _ _ _ Hprimary Hmatches Hlast Hk).
    by rewrite found_line_text.
  - intros Hn k Hk Hlast.
    rewrite (run_last_match_line _ _ _ _ _ _ _ Hprimary Hmatches Hlast Hk).
    rewrite found_line_text. fold n. rewrite Hn. reflexivity.
  - intros Hshort. rewrite <- passed_line_text.
    apply (run_not_passed _ _ Hprimary), check_completeness_fails_iff.
    right; left. exists planet, desc. split; [|done].
    rewrite Hmatches. apply elem_of_app. right. by left.
Qed.

(** C3, as amended. When extraction produces no record for one of the
    nine expected identifiers, the report has the line that marks it
    MISSING and never has the line of success. The run ends with the line
    VALIDATION FAILED whenever it reaches the verdict, that is when the
    witness module is read or absent; when reading the witness module
    raises another error, the run ends in that error and prints no
    verdict. *)
Theorem missing_planet_reported fs content planet :
  fs "src/wisdom_data.rs"%string = Read content ->
  planet ∈ expected_planets ->
  planet ∉ map fst (extract_planet_records content) ->
  (10060%N :: 32%N :: (planet ++ replicate (10 - length planet) 32%N) ++
   s2l " - MISSING") ∈ (run fs).1 /\
  ((9989%N :: s2l " ALL VALIDATION CHECKS PASSED") ∉ (run fs).1) /\
  ((forall e, fs "src/witness.rs"%string = Fails e -> e = FileNotFoundError) ->
   exists lines,
     run fs =
     (lines ++ [10060%N :: s2l " VALIDATION FAILED - See errors above";
                replicate 70 61%N], Value ())) /\
  (forall e,
     fs "src/witness.rs"%string = Fails e -> e <> FileNotFoundError ->
     (run fs).2 = Raised e /\
     (10060%N :: s2l " VALIDATION FAILED - See errors above") ∉ (run fs).1).
Proof.
  intros Hprimary Hin Hnot.
  pose proof (check_completeness_missing _ _ Hin Hnot) as Hfail.
  rewrite <- missing_line_text, <- passed_line_text, <- failed_line_text,
    <- separator_text.
  split_and!.
  - pose proof (missing_line_printed _ _ Hin Hnot) as Hline.
    rewrite (run_primary_read _ _ Hprimary).
    destruct (fs "src/witness.rs"%string) as [wc|e];
      [|destruct (is_FileNotFoundError e)]; cbn [fst];
      rewrite ?elem_of_app; auto.
  - by apply (run_not_passed _ _ Hprimary).
  - by apply (run_completeness_fails _ content).
  - intros e. by apply (run_other_error _ content).
Qed.

(** C4. When the witness module is absent, no exception leaves the
    program: the run completes, the report marks the module with the line
    witness.rs NOT FOUND, and its aggregate line is VALIDATION FAILED,
    never the line of success, whatever the primary artifact holds. *)
Theorem witness_absent_reported fs content :
  fs "src/wisdom_data.rs"%string = Read content ->
  fs "src/witness.rs"%string = Fails FileNotFoundError ->
  run fs =
    (report_before_witness content ++
     [10007%N :: s2l " witness.rs NOT FOUND";
      [];
      replicate 70 61%N;
      10060%N :: s2l " VALIDATION FAILED - See errors above";
      replicate 70 61%N], Value ()) /\
  (9989%N :: s2l " ALL VALIDATION CHECKS PASSED") ∉ (run fs).1.
Proof.
  intros Hprimary Hwitness.
  rewrite (run_primary_read _ _ Hprimary), Hwitness. cbn [is_FileNotFoundError fst].
  split; [reflexivity|].
  rewrite <- passed_line_text.
  apply looks_passed_not_in. rewrite Forall_app. split.
  - apply report_before_witness_not_passed.
  - by repeat constructor.
Qed.

(** C9, as amended. Every match of the extraction pattern is counted in
    the found total, also a second match of the same planet: when all nine
    expected identifiers are matched and one of them twice, the total
    exceeds 9, the line of success is never printed, and the verdict is
    VALIDATION FAILED whenever the run reaches it, that is when the
    witness module is read or absent, whatever the descriptions are. The
    entry kept for a planet is the one of its last match, and the line of
    the planet gives the word count of that match. *)
Theorem duplicate_planet_counted fs content :
  fs "src/wisdom_data.rs"%string = Read content ->
  let matches := extract_planet_records content in
  (run fs).1 !! 4 =
    Some (10003%N :: s2l " Planets Found: " ++ py_str_nat (length matches) ++
          s2l "/9") /\
  ((forall planet, planet ∈ expected_planets -> planet ∈ map fst matches) ->
   ~ NoDup (map fst matches) ->
   9 < length matches /\
   ((9989%N :: s2l " ALL VALIDATION CHECKS PASSED") ∉ (run fs).1) /\
   ((forall e, fs "src/witness.rs"%string = Fails e -> e = FileNotFoundError) ->
    exists lines,
      run fs =
      (lines ++ [10060%N :: s2l " VALIDATION FAILED - See errors above";
                 replicate 70 61%N], Value ()))) /\
  (forall before planet desc after k,
     matches = before ++ (planet, desc) :: after ->
     planet ∉ map fst after ->
     expected_planets !! k = Some planet ->
     let n := length (py_split desc) in
     (collect matches).2 !! planet = Some (record_of desc) /\
     word_count (record_of desc) = n /\
     (run fs).1 !! (6 + k) =
     Some ((if 50 <? n then 9989%N else 10060%N) :: 32%N ::
           (planet ++ replicate (10 - length planet) 32%N) ++ s2l " - " ++
           fmt_int 3 n ++ s2l " words " ++
           (if 50 <? n then s2l "(PASS)" else s2l "(FAIL: <50 words)"))).
Proof.
  intros Hprimary matches. split_and!.
  - rewrite (run_before_witness_lookup _ _ _ Hprimary) by lia. reflexivity.
  - intros Hall Hdup.
    assert (Hlen : 9 < length matches).
    { destruct (decide (length matches <= 9)) as [Hle|]; [exfalso|lia].
      apply Hdup. rewrite <- (nine_records_permutation matches Hall Hle).
      apply expected_planets_NoDup. }
    assert (Hfail : (check_completeness matches).2 = false).
    { apply check_completeness_fails_iff. right; right. lia. }
    rewrite <- passed_line_text, <- failed_line_text, <- separator_text.
    split_and!; [done|by apply (run_not_passed _ _ Hprimary)|].
    by apply (run_completeness_fails _ content).
  - intros before planet desc after k Hmatches Hlast Hk n. split_and!.
    + rewrite Hmatches. by apply collect_lookup_last.
    + reflexivity.
    + rewrite (run_last_match_line _ _ _ _ _ _ _ Hprimary Hmatches Hlast Hk).
      by rewrite found_line_text.
Qed.

(** X11. A run that completes prints exactly one verdict line, as the
    line before the final separator: after 32 other lines when the
    witness module was read, after 28 when it was absent. A run that ends
    in an error prints no verdict line at all, and a run completes only
    when the primary artifact was read and the witness module was read or
    absent. *)
Theorem one_verdict_line fs :
  (forall content witness_content,
     fs "src/wisdom_data.rs"%string = Read content ->
     fs "src/witness.rs"%string = Read witness_content ->
     exists lines (ok : bool),
       run fs =
       (lines ++
        [if ok then 9989%N :: s2l " ALL VALIDATION CHECKS PASSED"
         else 10060%N :: s2l " VALIDATION FAILED - See errors above";
         replicate 70 61%N], Value ()) /\
       length lines = 32 /\
       ((9989%N :: s2l " ALL VALIDATION CHECKS PASSED") ∉ lines) /\
       ((10060%N :: s2l " VALIDATION FAILED - See errors above") ∉ lines)) /\
  (forall content,
     fs "src/wisdom_data.rs"%string = Read content ->
     fs "src/witness.rs"%string = Fails FileNotFoundError ->
     exists lines,
       run fs =
       (lines ++ [10060%N :: s2l " VALIDATION FAILED - See errors above";
                  replicate 70 61%N], Value ()) /\
       length lines = 28 /\
       ((9989%N :: s2l " ALL VALIDATION CHECKS PASSED") ∉ lines) /\
       ((10060%N :: s2l " VALIDATION FAILED - See errors above") ∉ lines)) /\
  (forall e,
     (run fs).2 = Raised e ->
     ((9989%N :: s2l " ALL VALIDATION CHECKS PASSED") ∉ (run fs).1) /\
     ((10060%N :: s2l " VALIDATION FAILED - See errors above") ∉ (run fs).1)) /\
  ((run fs).2 = Value () ->
   exists content,
     fs "src/wisdom_data.rs"%string = Read content /\
     ((exists witness_content, fs "src/witness.rs"%string = Read witness_content) \/
      fs "src/witness.rs"%string = Fails FileNotFoundError)).
Proof.
  rewrite <- passed_line_text, <- failed_line_text, <- separator_text.
  split_and!.
  - intros content wc Hprimary Hwitness.
    pose proof (report_before_witness_not_passed content) as Hpassed.
    pose proof (report_before_witness_not_failed content) as Hfailed.
    pose proof (report_before_witness_length content) as Hlen.
    rewrite (run_primary_read _ _ Hprimary), Hwitness.
    exists (report_before_witness content ++
            witness_exists_line :: witness_detail wc ++ [[]; separator]),
           (check_completeness (extract_planet_records content)).2.
    split_and!.
    + by rewrite <- !app_assoc.
    + rewrite length_app, Hlen. reflexivity.
    + apply looks_passed_not_in. rewrite Forall_app. split; [done|].
      rewrite app_comm_cons, Forall_app. split; [apply witness_detail_not_passed|].
      by repeat constructor.
    + apply looks_failed_not_in. rewrite Forall_app. split; [done|].
      rewrite app_comm_cons, Forall_app. split; [apply witness_detail_not_failed|].
      by repeat constructor.
  - intros content Hprimary Hwitness.
    pose proof (report_before_witness_not_passed content) as Hpassed.
    pose proof (report_before_witness_not_failed content) as Hfailed.
    pose proof (report_before_witness_length content) as Hlen.
    rewrite (run_primary_read _ _ Hprimary), Hwitness. cbn [is_FileNotFoundError].
    exists (report_before_witness content ++ [not_found_line; []; separator]).
    split_and!.
    + by rewrite <- !app_assoc.
    + rewrite length_app, Hlen. reflexivity.
    + apply looks_passed_not_in. rewrite Forall_app. split; [done|].
      by repeat constructor.
    + apply looks_failed_not_in. rewrite Forall_app. split; [done|].
      by repeat constructor.
  - intros e.
    destruct (fs "src/wisdom_data.rs"%string) as [content|e'] eqn:Hprimary.
    2: { rewrite (run_primary_fails _ _ Hprimary). intros _.
         split; apply not_elem_of_nil. }
    rewrite (run_primary_read _ _ Hprimary).
    destruct (fs "src/witness.rs"%string) as [wc|e''];
      [|destruct (is_FileNotFoundError e'')]; cbn [fst snd]; [done..|].
    intros _. split.
    + apply looks_passed_not_in, report_before_witness_not_passed.
    + apply looks_failed_not_in, report_before_witness_not_failed.
  - destruct (fs "src/wisdom_data.rs"%string) as [content|e'] eqn:Hprimary.
    2: { by rewrite (run_primary_fails _ _ Hprimary). }
    rewrite (run_primary_read _ _ Hprimary). intros Hdone.
    exists content. split; [done|].
    destruct (fs "src/witness.rs"%string) as [wc|e'']; [left; by exists wc|right].
    destruct e''; done.
Qed.

(** X15. When the primary artifact does not hold the marker at all, as
    when it is empty, extraction returns nothing: the report gives 0/9 as
    the found total, marks each of the nine expected planets MISSING, in
    their order, and never prints the line of success. *)
Theorem no_marker_all_missing fs content :
  fs "src/wisdom_data.rs"%string = Read content ->
  py_contains (s2l "VedicPlanet::") content = false ->
  extract_planet_records content = [] /\
  (run fs).1 !! 4 = Some (10003%N :: s2l " Planets Found: 0/9") /\
  take 9 (drop 6 (run fs).1) =
    [10060%N :: s2l " Sun        - MISSING";
     10060%N :: s2l " Moon       - MISSING";
     10060%N :: s2l " Mars       - MISSING";
     10060%N :: s2l " Mercury    - MISSING";
     10060%N :: s2l " Jupiter    - MISSING";
     10060%N :: s2l " Venus      - MISSING";
     10060%N :: s2l " Saturn     - MISSING";
     10060%N :: s2l " Rahu       - MISSING";
     10060%N :: s2l " Ketu       - MISSING"] /\
  ((9989%N :: s2l " ALL VALIDATION CHECKS PASSED") ∉ (run fs).1).
Proof.
  intros Hprimary Habsent.
  assert (Hextract : extract_planet_records content = []).
  { unfold extract_planet_records, findall2.
    rewrite finditer_search_none; [done|].
    apply search_none. intros i. apply match_at_planet_key.
    by apply py_contains_false. }
  assert (Hbefore : report_before_witness content =
            report_head 0 ++ map missing_line expected_planets ++ report_sun content).
  { unfold report_before_witness. rewrite Hextract. reflexivity. }
  assert (Hfail : (check_completeness (extract_planet_records content)).2 = false).
  { rewrite Hextract. reflexivity. }
  split_and!.
  - done.
  - rewrite (run_before_witness_lookup _ _ _ Hprimary) by lia.
    by rewrite Hbefore.
  - rewrite (run_primary_read _ _ Hprimary).
    destruct (fs "src/witness.rs"%string) as [wc|e];
      [|destruct (is_FileNotFoundError e)]; cbn [fst]; by rewrite Hbefore.
  - rewrite <- passed_line_text. by apply (run_not_passed _ _ Hprimary).
Qed.

End Validator.

(* ================================================================== *)
(** ** Sample runs *)
(* ================================================================== *)

(** *** The model on small inputs *)

Example py_split_example :
  py_split (s2l "  inner   light of" ++ newline ++ s2l "the self ") =
  [s2l "inner"; s2l "light"; s2l "of"; s2l "the"; s2l "self"].
Proof. reflexivity. Qed.

Example fmt_str_example : fmt_str 10 (s2l "Sun") = s2l "Sun       ".
Proof. reflexivity. Qed.

Example fmt_int_example :
  fmt_int 3 60 = s2l " 60" /\ fmt_int 3 7 = s2l "  7" /\ fmt_int 3 1234 = s2l "1234".
Proof. by vm_compute. Qed.

Example py_slice_example :
  py_slice (s2l "planets") 2 5 = s2l "ane" /\
  py_slice (s2l "planets") (-3) 100 = s2l "ets" /\
  py_slice (s2l "planets") 5 2 = [].
Proof. by vm_compute. Qed.

(** A marker that is absent gives [-1] as a bound of the slice. *)
Example isolate_section_without_end_marker :
  isolate_section (s2l "a:Sun, b") (s2l "Sun,") (s2l "Moon,") = s2l "Sun, ".
Proof. by vm_compute. Qed.

(** The lazy star runs over the end of a record that has no description:
    the Sun takes the description of the Moon, and the Moon has no record
    of its own. *)
Example extraction_crosses_records :
  extract_planet_records ascii_only
    (s2l "VedicPlanet::Sun, PlanetaryPeriodQualities { themes: vec![] } " ++
     s2l "VedicPlanet::Moon, PlanetaryPeriodQualities { description: " ++
     [dquote] ++ s2l "calm mind" ++ [dquote] ++ s2l " }") =
  [(s2l "Sun", s2l "calm mind")].
Proof. by vm_compute. Qed.

(** The greedy plus gives back what the rest of the pattern needs. *)
Example greedy_plus_backtracks :
  findall1 ascii_only (RGroup 1 (RPlus CWord) ;;; RLit (s2l "s,"))%re
    (s2l "planets, signs,") = [s2l "planet"; s2l "sign"].
Proof. by vm_compute. Qed.

Example count_items_sample_record :
  let sun_section :=
    isolate_section complete_data (s2l "VedicPlanet::Sun,") (s2l "VedicPlanet::Moon,") in
  count_items ascii_only theme_pattern sun_section = 2 /\
  count_items ascii_only life_areas_pattern sun_section = 0.
Proof. by vm_compute. Qed.

(** *** The theorems at these artifacts *)

Ltac decide_by_computation := apply (bool_decide_unpack _); vm_compute; reflexivity.


(** The witness module cannot be read for want of permission. *)
Lemma witness_error_propagates_witness :
  let fs := two_files (Read complete_data) (Fails PermissionError) in
  fs "src/wisdom_data.rs"%string = Read complete_data /\
  fs "src/witness.rs"%string = Fails PermissionError /\
  run ascii_only fs =
    (report_before_witness ascii_only complete_data, Raised PermissionError).
Proof.
  intros fs.
  assert (Hprimary : fs "src/wisdom_data.rs"%string = Read complete_data)
    by reflexivity.
  assert (Hwitness : fs "src/witness.rs"%string = Fails PermissionError)
    by reflexivity.
  split_and!; [exact Hprimary | exact Hwitness |].
  apply (proj1 (witness_error_propagates ascii_only fs _ _ Hprimary Hwitness)).
  discriminate.
Defined.

(** Two witness modules that differ in tests and prompt functions. *)
Lemma verdict_independent_of_witness_content_witness :
  let fs1 := two_files (Read incomplete_data) (Read full_witness) in
  let fs2 := two_files (Read incomplete_data) (Read bare_witness) in
  witness_detail ascii_only full_witness <> witness_detail ascii_only bare_witness /\
  exists before verdict,
    run ascii_only fs1 =
      (before ++ witness_detail ascii_only full_witness ++
       [[]; separator; verdict; separator], Value ()) /\
    run ascii_only fs2 =
      (before ++ witness_detail ascii_only bare_witness ++
       [[]; separator; verdict; separator], Value ()) /\
    verdict = verdict_line
      (check_completeness (extract_planet_records ascii_only incomplete_data)).2.
Proof.
  intros fs1 fs2. split; [vm_compute; discriminate|].
  exact (proj1 (proj2
    (verdict_independent_of_witness_content ascii_only fs1 fs2
       full_witness bare_witness eq_refl eq_refl eq_refl))
    incomplete_data eq_refl).
Defined.


(** The themes of a Sun record: two items. *)
Lemma count_items_list_field_witness :
  let pre := s2l "        " in
  let ws := s2l " " in
  let items := [s2l "Authority"; s2l "Vitality"] in
  let body := items_text (s2l ", ") items in
  let post := s2l "," ++ newline in
  let section :=
    pre ++ (s2l "themes" ++ s2l ":") ++ ws ++ s2l "vec![" ++ body ++ s2l "]" ++ post in
  py_find section (s2l "themes" ++ s2l ":") = Z.of_nat (length pre) /\
  ws <> [] /\ all_space ws = true /\ (rbracket ∉ body) /\
  count_items ascii_only theme_pattern section = 2.
Proof.
  intros pre ws items body post section.
  assert (Hfind : py_find section (s2l "themes" ++ s2l ":") = Z.of_nat (length pre))
    by reflexivity.
  assert (Hne : ws <> []) by discriminate.
  assert (Hws : all_space ws = true) by reflexivity.
  assert (Hbody : rbracket ∉ body) by decide_by_computation.
  split_and!; [exact Hfind | exact Hne | exact Hws | exact Hbody |].
  apply (proj1 (proj2
    (count_items_list_field ascii_only "themes" pre ws body post
       Hfind Hne Hws Hbody)) (s2l ", ") items); [reflexivity..|].
  intros s Hs. unfold items in Hs.
  repeat (apply elem_of_cons in Hs as [->|Hs]; [reflexivity|]).
  by apply elem_of_nil in Hs.
Defined.

(** C5, as stated, fails on a list whose one item holds a closing
    bracket: the section has one quoted and converted item for the field
    and [count_items] returns 0. *)
Lemma count_items_counterexample :
  bracket_section =
    s2l "themes: vec![" ++ [dquote] ++ s2l "a]b" ++ [dquote] ++ s2l ".to_string()]" /\
  length bracket_items = 1 /\
  count_items ascii_only theme_pattern bracket_section = 0 /\
  count_items ascii_only theme_pattern bracket_section <> length bracket_items.
Proof.
  split_and!; [reflexivity | reflexivity | by vm_compute |].
  vm_compute. discriminate.
Qed.

(** The complete data file and the full witness module. *)
Lemma nine_valid_planets_pass_witness :
  let fs := two_files (Read complete_data) (Read full_witness) in
  map fst (extract_planet_records ascii_only complete_data) ≡ₚ expected_planets /\
  length (findall0 ascii_only test_pattern full_witness) = 3 /\
  (run ascii_only fs).1 !! 4 = Some (check_mark ++ s2l " Planets Found: 9/9") /\
  last (run ascii_only fs).1 = Some separator /\
  green_check ++ s2l " ALL VALIDATION CHECKS PASSED" ∈ (run ascii_only fs).1.
Proof.
  intros fs.
  assert (Hprimary : fs "src/wisdom_data.rs"%string = Read complete_data)
    by reflexivity.
  assert (Hwitness : fs "src/witness.rs"%string = Read full_witness)
    by reflexivity.
  assert (Hmatches : extract_planet_records ascii_only complete_data =
                     map (fun planet => (planet, words 60)) expected_planets)
    by (vm_compute; reflexivity).
  assert (Hperm : map fst (extract_planet_records ascii_only complete_data)
                  ≡ₚ expected_planets).
  { rewrite Hmatches. reflexivity. }
  assert (Hwords : forall planet desc,
             (planet, desc) ∈ extract_planet_records ascii_only complete_data ->
             length (py_split desc) = 60).
  { rewrite Hmatches. intros planet desc Hin.
    apply list_elem_of_fmap in Hin as (p & [= _ ->] & _).
    vm_compute. reflexivity. }
  assert (Htests : length (findall0 ascii_only test_pattern full_witness) = 3)
    by (vm_compute; reflexivity).
  rewrite (nine_valid_planets_pass ascii_only fs complete_data full_witness
             Hprimary Hwitness Hperm Hwords Htests eq_refl eq_refl eq_refl).
  split_and!; [exact Hperm | exact Htests | reflexivity | reflexivity |].
  decide_by_computation.
Defined.

(** *** The further properties at sample artifacts *)

Lemma report_empty_iff_primary_unreadable_witness :
  let fs := two_files (Fails PermissionError) (Read full_witness) in
  run ascii_only fs = ([], Raised PermissionError) /\
  (run ascii_only fs).1 = [].
Proof.
  intros fs.
  pose proof (report_empty_iff_primary_unreadable ascii_only fs) as [Hiff Hrun].
  split; [by apply Hrun|]. apply Hiff. by exists PermissionError.
Defined.

Lemma passed_iff_complete_witness :
  passed_line ∉ (run ascii_only (two_files (Read duplicate_data) (Read full_witness))).1.
Proof.
  intros (content & wc & Hprimary & _ & Hperm & _)%passed_iff_complete.
  injection Hprimary as <-.
  apply Permutation_length in Hperm. revert Hperm.
  rewrite length_map. vm_compute. discriminate.
Defined.

Lemma extraction_sound_witness :
  (s2l "Sun", words 50) ∈ extract_planet_records ascii_only incomplete_data /\
  exists pre e post,
    incomplete_data = pre ++ record_text e ++ post /\
    shaped ascii_only e /\ rs_name e = s2l "Sun" /\ rs_desc e = words 50.
Proof.
  assert (Hin : (s2l "Sun", words 50) ∈
                extract_planet_records ascii_only incomplete_data)
    by decide_by_computation.
  split; [exact Hin|].
  exact (extraction_sound ascii_only incomplete_data _ _ Hin).
Defined.

Ltac sample_well_formed :=
  repeat first
    [ apply Forall_nil
    | apply Forall_cons; split
    | split
    | discriminate
    | vm_compute; reflexivity ].

Lemma nine_entries_well_formed : Forall (well_formed ascii_only) nine_entries.
Proof. unfold nine_entries; simpl map. sample_well_formed. Qed.

Lemma extraction_complete_witness :
  let fs := two_files (Read (file_text nine_entries ++ sample_trailer))
                      (Fails FileNotFoundError) in
  extract_planet_records ascii_only (file_text nine_entries ++ sample_trailer) =
    map (fun planet => (planet, words 60)) expected_planets /\
  (run ascii_only fs).1 !! 4 = Some (found_count_line 9).
Proof.
  intros fs.
  exact (extraction_complete ascii_only fs nine_entries sample_trailer
           eq_refl nine_entries_well_formed eq_refl).
Defined.

Lemma well_formed_file_passes_witness :
  let fs := two_files (Read (file_text nine_entries ++ sample_trailer))
                      (Read bare_witness) in
  exists lines,
    run ascii_only fs = (lines ++ [passed_line; separator], Value ()) /\
    lines !! 4 = Some (check_mark ++ s2l " Planets Found: 9/9").
Proof.
  intros fs.
  apply (well_formed_file_passes ascii_only fs nine_entries sample_trailer
           bare_witness eq_refl eq_refl nine_entries_well_formed eq_refl).
  - reflexivity.
  - intros e He. unfold nine_entries in He.
    apply list_elem_of_fmap in He as (planet & -> & _).
    vm_compute. lia.
Defined.

Lemma isolate_section_empty_witness :
  py_find moon_first_data sun_marker = Z.of_nat 550 /\
  py_find moon_first_data moon_marker = Z.of_nat 13 /\
  isolate_section moon_first_data sun_marker moon_marker = [] /\
  count_items ascii_only theme_pattern
    (isolate_section moon_first_data sun_marker moon_marker) = 0.
Proof.
  assert (Hsun : py_find moon_first_data sun_marker = Z.of_nat 550)
    by (vm_compute; reflexivity).
  assert (Hmoon : py_find moon_first_data moon_marker = Z.of_nat 13)
    by (vm_compute; reflexivity).
  destruct (isolate_section_empty ascii_only moon_first_data sun_marker moon_marker)
    as [Hempty Hcount].
  { right. exists 550, 13. split_and!; [exact Hsun | exact Hmoon | lia]. }
  split_and!; [exact Hsun | exact Hmoon | exact Hempty | apply Hcount].
Defined.

Lemma isolate_section_end_absent_witness :
  let text := s2l "a VedicPlanet::Sun, themes: x" in
  py_find text sun_marker = Z.of_nat 2 /\
  py_find text moon_marker = (-1)%Z /\
  isolate_section text sun_marker moon_marker = s2l "VedicPlanet::Sun, themes: ".
Proof.
  intros text.
  assert (Hsun : py_find text sun_marker = Z.of_nat 2) by reflexivity.
  assert (Hmoon : py_find text moon_marker = (-1)%Z) by reflexivity.
  split_and!; [exact Hsun | exact Hmoon |].
  rewrite (proj1 (isolate_section_end_absent text sun_marker moon_marker 2
                    Hsun Hmoon)).
  reflexivity.
Defined.

Lemma sun_block_reports_zero_witness :
  let fs := two_files (Read moon_only_data) (Read bare_witness) in
  py_contains sun_marker moon_only_data = false /\
  (run ascii_only fs).1 !! 20 = Some (s2l "  Themes:        0 items").
Proof.
  intros fs.
  assert (Habsent : py_contains sun_marker moon_only_data = false)
    by (vm_compute; reflexivity).
  split; [exact Habsent|].
  apply (sun_block_reports_zero ascii_only fs moon_only_data eq_refl).
  by left.
Defined.

Lemma tests_found_counts_occurrences_witness :
  let fs := two_files (Read complete_data) (Read full_witness) in
  count_sub test_marker full_witness = 3 /\
  (run ascii_only fs).1 !! 26 = Some (check_mark ++ s2l " Unit tests found: 3").
Proof.
  intros fs. split; [by vm_compute|].
  exact (proj2 (tests_found_counts_occurrences ascii_only fs complete_data
                  full_witness eq_refl eq_refl)).
Defined.

Lemma prompt_lines_follow_occurrence_witness :
  let fs := two_files (Read complete_data) (Read bare_witness) in
  ~ occurs_in (s2l "generate_beginner_prompt") bare_witness /\
  (run ascii_only fs).1 !! 27 = Some (ballot_x ++ s2l " Beginner prompt function").
Proof.
  intros fs.
  destruct (prompt_lines_follow_occurrence ascii_only fs complete_data
              bare_witness eq_refl eq_refl)
    as (beginner & intermediate & advanced & Hline & _ & _ & Hiff & _ & _).
  assert (Hnot : ~ occurs_in (s2l "generate_beginner_prompt") bare_witness).
  { intros Hin. apply py_contains_occurs in Hin. vm_compute in Hin. discriminate. }
  split; [exact Hnot|]. rewrite Hline.
  destruct beginner; [|reflexivity]. exfalso. by apply Hnot, Hiff.
Defined.

Lemma short_description_invalid_witness :
  let content := data_file [("Sun", 12)]%string in
  (collect (extract_planet_records ascii_only content)).2 !! s2l "Sun"
    = Some (record_of (words 12)) /\
  length (words 12) < 101 /\
  found_line (s2l "Sun") (record_of (words 12)) = fail_line (s2l "Sun") 12.
Proof.
  intros content.
  assert (Hlookup :
    (collect (extract_planet_records ascii_only content)).2 !! s2l "Sun"
    = Some (record_of (words 12))) by (vm_compute; reflexivity).
  assert (Hshort : length (words 12) < 101) by (vm_compute; lia).
  split_and!; [exact Hlookup | exact Hshort |].
  exact (proj1 (proj2
    (short_description_invalid ascii_only content _ _ Hlookup)) Hshort).
Defined.

Lemma unexpected_record_counted_witness :
  let nine := map (fun planet => (planet, words 60)) expected_planets in
  (s2l "Pluto" ∉ expected_planets) /\
  (check_completeness nine).2 = true /\
  (check_completeness (nine ++ [(s2l "Pluto", words 60)])).2 = false.
Proof.
  intros nine.
  assert (Hnot : s2l "Pluto" ∉ expected_planets) by decide_by_computation.
  split_and!; [exact Hnot | by vm_compute |].
  apply (proj2 (proj2
    (unexpected_record_counted nine (s2l "Pluto") (words 60) [] Hnot))).
  intros expected Hin. rewrite app_nil_r. unfold nine.
  apply list_elem_of_fmap. exists (expected, words 60). split; [reflexivity|].
  apply list_elem_of_fmap. exists expected. split; [reflexivity | exact Hin].
Defined.

(** *** The amended claims at sample artifacts *)

(** The Sun of exactly 50 words, first record of the data file. *)
Lemma valid_iff_word_count_witness :
  let fs := two_files (Read incomplete_data) (Read bare_witness) in
  length (py_split (words 50)) = 50 /\
  valid (record_of (words 50)) = false /\
  (run ascii_only fs).1 !! 6 =
    Some (10060%N :: s2l " Sun        -  50 words (FAIL: <50 words)") /\
  ((9989%N :: s2l " ALL VALIDATION CHECKS PASSED") ∉ (run ascii_only fs).1).
Proof.
  intros fs.
  assert (Hprimary : fs "src/wisdom_data.rs"%string = Read incomplete_data)
    by reflexivity.
  assert (Hmatches :
    extract_planet_records ascii_only incomplete_data =
    [] ++ (s2l "Sun", words 50) ::
    map (fun planet => (s2l planet, words 60))
      ["Moon"; "Mars"; "Mercury"; "Jupiter"; "Venus"; "Saturn"; "Rahu"]%string)
    by (vm_compute; reflexivity).
  assert (Hcount : length (py_split (words 50)) = 50) by (vm_compute; reflexivity).
  destruct (valid_iff_word_count ascii_only fs _ _ _ _ _ Hprimary Hmatches)
    as (_ & _ & Hvalid & _ & _ & Hline & Hpassed).
  split_and!.
  - exact Hcount.
  - apply not_true_is_false. intros Hv.
    apply Hvalid in Hv. rewrite Hcount in Hv. lia.
  - apply (Hline Hcount 0); [reflexivity | decide_by_computation].
  - apply Hpassed. rewrite Hcount. lia.
Defined.

(** C2, as stated, fails on a description of exactly 50 words that a
    later match of the same planet overwrites: the description is
    extracted, but no line of the report gives 50 words, and the line of
    its planet says PASS with the 60 words of the later match. *)
Lemma valid_iff_word_count_counterexample :
  let fs := two_files (Read overwritten_data) (Read full_witness) in
  (s2l "Sun", words 50) ∈ extract_planet_records ascii_only overwritten_data /\
  length (py_split (words 50)) = 50 /\
  (run ascii_only fs).1 !! 6 = Some (9989%N :: s2l " Sun        -  60 words (PASS)") /\
  Forall (fun line => py_contains (s2l " 50 words") line = false)
    (run ascii_only fs).1.
Proof.
  intros fs.
  split_and!; [decide_by_computation | vm_compute; reflexivity
              | vm_compute; reflexivity | decide_by_computation].
Qed.

(** Ketu is missing from the data file. *)
Lemma missing_planet_reported_witness :
  let fs := two_files (Read incomplete_data) (Read bare_witness) in
  s2l "Ketu" ∈ expected_planets /\
  (s2l "Ketu" ∉ map fst (extract_planet_records ascii_only incomplete_data)) /\
  (10060%N :: s2l " Ketu       - MISSING") ∈ (run ascii_only fs).1 /\
  ((9989%N :: s2l " ALL VALIDATION CHECKS PASSED") ∉ (run ascii_only fs).1) /\
  exists lines,
    run ascii_only fs =
    (lines ++ [10060%N :: s2l " VALIDATION FAILED - See errors above";
               replicate 70 61%N], Value ()).
Proof.
  intros fs.
  assert (Hprimary : fs "src/wisdom_data.rs"%string = Read incomplete_data)
    by reflexivity.
  assert (Hin : s2l "Ketu" ∈ expected_planets) by decide_by_computation.
  assert (Hnot : s2l "Ketu" ∉
            map fst (extract_planet_records ascii_only incomplete_data))
    by decide_by_computation.
  destruct (missing_planet_reported ascii_only fs _ _ Hprimary Hin Hnot)
    as (Hline & Hpassed & Hfailed & _).
  split_and!; [exact Hin | exact Hnot | exact Hline | exact Hpassed |].
  apply Hfailed. intros e He. discriminate He.
Defined.

(** C3, as stated, fails when the witness module is a directory: Ketu is
    missing and marked MISSING, but the run ends in the error of the read
    and no line of the report says VALIDATION FAILED. *)
Lemma missing_planet_reported_counterexample :
  let fs := two_files (Read incomplete_data) (Fails IsADirectoryError) in
  s2l "Ketu" ∈ expected_planets /\
  (s2l "Ketu" ∉ map fst (extract_planet_records ascii_only incomplete_data)) /\
  (10060%N :: s2l " Ketu       - MISSING") ∈ (run ascii_only fs).1 /\
  (run ascii_only fs).2 = Raised IsADirectoryError /\
  Forall (fun line => py_contains (s2l "VALIDATION FAILED") line = false)
    (run ascii_only fs).1.
Proof.
  intros fs.
  split_and!; [decide_by_computation | decide_by_computation
              | decide_by_computation | vm_compute; reflexivity
              | decide_by_computation].
Qed.

(** The witness module is absent. *)
Lemma witness_absent_reported_witness :
  let fs := two_files (Read complete_data) (Fails FileNotFoundError) in
  (run ascii_only fs).2 = Value () /\
  (10007%N :: s2l " witness.rs NOT FOUND") ∈ (run ascii_only fs).1 /\
  (exists lines,
     (run ascii_only fs).1 =
     lines ++ [10060%N :: s2l " VALIDATION FAILED - See errors above";
               replicate 70 61%N]) /\
  ((9989%N :: s2l " ALL VALIDATION CHECKS PASSED") ∉ (run ascii_only fs).1).
Proof.
  intros fs.
  assert (Hprimary : fs "src/wisdom_data.rs"%string = Read complete_data)
    by reflexivity.
  assert (Hwitness : fs "src/witness.rs"%string = Fails FileNotFoundError)
    by reflexivity.
  destruct (witness_absent_reported ascii_only fs _ Hprimary Hwitness)
    as [Hrun Hpassed].
  split_and!; [| | |exact Hpassed]; rewrite Hrun; cbn [fst snd].
  - reflexivity.
  - apply elem_of_app. right. by left.
  - exists (report_before_witness ascii_only complete_data ++
            [10007%N :: s2l " witness.rs NOT FOUND"; []; replicate 70 61%N]).
    by rewrite <- app_assoc.
Defined.


(** The data file with a second Sun. *)
Lemma duplicate_planet_counted_witness :
  let fs := two_files (Read duplicate_data) (Read full_witness) in
  let matches := extract_planet_records ascii_only duplicate_data in
  (forall planet, planet ∈ expected_planets -> planet ∈ map fst matches) /\
  ~ NoDup (map fst matches) /\
  (forall planet desc, (planet, desc) ∈ matches -> 50 < length (py_split desc)) /\
  (run ascii_only fs).1 !! 4 = Some (10003%N :: s2l " Planets Found: 10/9") /\
  (exists lines,
     run ascii_only fs =
     (lines ++ [10060%N :: s2l " VALIDATION FAILED - See errors above";
                replicate 70 61%N], Value ())) /\
  (run ascii_only fs).1 !! 6 = Some (9989%N :: s2l " Sun        -  70 words (PASS)").
Proof.
  intros fs matches.
  assert (Hprimary : fs "src/wisdom_data.rs"%string = Read duplicate_data)
    by reflexivity.
  assert (Hcaught : forall e,
             fs "src/witness.rs"%string = Fails e -> e = FileNotFoundError)
    by (intros e He; discriminate He).
  assert (Hmatches : matches =
            map (fun planet => (planet, words 60)) expected_planets ++
            (s2l "Sun", words 70) :: [])
    by (vm_compute; reflexivity).
  assert (Hall : forall planet,
             planet ∈ expected_planets -> planet ∈ map fst matches).
  { intros planet Hin. rewrite Hmatches, map_app. apply elem_of_app. left.
    apply list_elem_of_fmap. exists (planet, words 60). split; [reflexivity|].
    apply list_elem_of_fmap. exists planet. split; [reflexivity | exact Hin]. }
  assert (Hdup : ~ NoDup (map fst matches)).
  { rewrite Hmatches. decide_by_computation. }
  assert (Hwords : forall planet desc,
             (planet, desc) ∈ matches -> 50 < length (py_split desc)).
  { rewrite Hmatches. intros planet desc [Hin|Hin]%elem_of_app.
    - apply list_elem_of_fmap in Hin as (p & [= _ ->] & _). vm_compute. lia.
    - apply list_elem_of_singleton in Hin as [= _ ->]. vm_compute. lia. }
  destruct (duplicate_planet_counted ascii_only fs duplicate_data Hprimary)
    as (Hcount & Hfail & Hlast).
  fold matches in Hcount, Hfail, Hlast.
  destruct (Hfail Hall Hdup) as (_ & _ & Hverdict).
  destruct (Hlast _ (s2l "Sun") (words 70) [] 0 Hmatches) as (_ & _ & Hline);
    [apply not_elem_of_nil | reflexivity |].
  split_and!; [exact Hall | exact Hdup | exact Hwords | | by apply Hverdict |].
  - rewrite Hcount, Hmatches. reflexivity.
  - change (6 + 0) with 6 in Hline. rewrite Hline. vm_compute. reflexivity.
Defined.

(** C9, as stated, fails when the witness module is a directory: all nine
    planets are matched, the Sun twice, the total is 10, but the run ends
    in the error of the read and no line of the report gives a verdict. *)
Lemma duplicate_planet_counted_counterexample :
  let fs := two_files (Read duplicate_data) (Fails IsADirectoryError) in
  let matches := extract_planet_records ascii_only duplicate_data in
  map fst matches = expected_planets ++ [s2l "Sun"] /\
  (run ascii_only fs).1 !! 4 = Some (10003%N :: s2l " Planets Found: 10/9") /\
  (run ascii_only fs).2 = Raised IsADirectoryError /\
  Forall (fun line =>
            py_contains (s2l "VALIDATION FAILED") line
            || py_contains (s2l "CHECKS PASSED") line = false)
    (run ascii_only fs).1.
Proof.
  intros fs matches.
  split_and!; [vm_compute; reflexivity | vm_compute; reflexivity
              | vm_compute; reflexivity | decide_by_computation].
Qed.

(** An empty primary artifact. *)
Lemma no_marker_all_missing_witness :
  let fs := two_files (Read []) (Read full_witness) in
  (run ascii_only fs).1 !! 4 = Some (10003%N :: s2l " Planets Found: 0/9") /\
  (run ascii_only fs).1 !! 14 = Some (10060%N :: s2l " Ketu       - MISSING").
Proof.
  intros fs.
  destruct (no_marker_all_missing ascii_only fs [] eq_refl eq_refl)
    as (_ & Hcount & Hlines & _).
  split; [exact Hcount|].
  apply (f_equal (fun lines => lines !! 8)) in Hlines.
  rewrite lookup_take_lt, lookup_drop in Hlines by lia. exact Hlines.
Defined.

(** The complete data file with the full witness module, and with a
    witness module that cannot be read. *)
Lemma one_verdict_line_witness :
  (exists lines (ok : bool),
     run ascii_only (two_files (Read complete_data) (Read full_witness)) =
     (lines ++
      [if ok then 9989%N :: s2l " ALL VALIDATION CHECKS PASSED"
       else 10060%N :: s2l " VALIDATION FAILED - See errors above";
       replicate 70 61%N], Value ()) /\
     length lines = 32) /\
  ((10060%N :: s2l " VALIDATION FAILED - See errors above") ∉
   (run ascii_only (two_files (Read complete_data) (Fails PermissionError))).1).
Proof.
  split.
  - destruct (proj1 (one_verdict_line ascii_only
                       (two_files (Read complete_data) (Read full_witness)))
                complete_data full_witness eq_refl eq_refl)
      as (lines & ok & Hrun & Hlen & _).
    exists lines, ok. split; [exact Hrun | exact Hlen].
  - apply (proj1 (proj2 (proj2 (one_verdict_line ascii_only
             (two_files (Read complete_data) (Fails PermissionError)))))
             PermissionError).
    reflexivity.
Defined.
